(** * The record normaliser of the sales script ([clean_data] in index.py)

    A shallow embedding of [clean_data] and of the cell-level helpers it
    defines ([clean_gender], the quantity lambda, [get_age_group]),
    together with the properties the specification states about them.

    Modelling conventions.
    - Text is ASCII: a Python [str] is a [string]; the methods [strip],
      [lower] and [title] are the ASCII restrictions of the Python ones.
    - A cell is a [value]: the missing marker, a text, a number or a
      timestamp.  Finite floats are embedded in [Q]; the code only ever
      compares them with integer literals, which is exact.
    - A [DataFrame] lives in a heap and is updated in place, as
      [df.rename(..., inplace=True)] and [df[label] = ...] do; printing
      appends to the standard output kept in the state.
    - What the code leaves to pandas and what differs between releases of
      pandas (the text of a number, the number read in a text, what
      [pd.to_datetime] does with a day count that is not a whole number of
      days within the range of a datetime64[ns], with a text or with a
      timestamp among other cells, whether [.str] is given on a column of
      missing values) are the fields of the class [Pandas]; a statement
      with [`{Pandas}] holds for all of them.
    - Two calls of [clean_data] work on a whole column and can raise: the
      [.str] accessor of line 50, which pandas refuses with
      [AttributeError] on a column of numbers or of dates, and
      [pd.to_datetime] of line 54.  The other steps act cell by cell.
    - Dtypes are not stored: a column has the dtype pandas infers from its
      cells, so that a column of timestamps and missing values is a
      datetime column and a column without cells is an object column. *)

From Stdlib Require Import ZArith QArith Lqa Ascii String List Bool Lia DecimalString.
From stdpp Require Import base option list strings gmap.
Import ListNotations.

Local Open Scope string_scope.
Local Open Scope Z_scope.

(* ===================================================================== *)
(** ** Python text *)
(* ===================================================================== *)

Definition code (c : ascii) : nat := nat_of_ascii c.

(** [str.isspace] on ASCII: TAB, LF, VT, FF, CR, FS, GS, RS, US and space. *)
Definition isspace (c : ascii) : bool :=
  ((9 <=? code c) && (code c <=? 13) || (28 <=? code c) && (code c <=? 32))%nat.

Definition isupper (c : ascii) : bool := ((65 <=? code c) && (code c <=? 90))%nat.
Definition islower (c : ascii) : bool := ((97 <=? code c) && (code c <=? 122))%nat.
Definition iscased (c : ascii) : bool := isupper c || islower c.

Definition to_lower (c : ascii) : ascii :=
  if isupper c then ascii_of_nat (code c + 32) else c.
Definition to_upper (c : ascii) : ascii :=
  if islower c then ascii_of_nat (code c - 32) else c.

(** [s.lower()] *)
Fixpoint py_lower (s : string) : string :=
  match s with
  | EmptyString => EmptyString
  | String c r => String (to_lower c) (py_lower r)
  end.

(** [s.lstrip()], [s.rstrip()] and [s.strip()] without argument. *)
Fixpoint py_lstrip (s : string) : string :=
  match s with
  | EmptyString => EmptyString
  | String c r => if isspace c then py_lstrip r else s
  end.

Fixpoint py_rstrip (s : string) : string :=
  match s with
  | EmptyString => EmptyString
  | String c r =>
      match py_rstrip r with
      | EmptyString => if isspace c then EmptyString else String c EmptyString
      | r' => String c r'
      end
  end.

Definition py_strip (s : string) : string := py_lstrip (py_rstrip s).

(** [s.title()]: a cased character is upper-cased when the character before
    it is not cased, and lower-cased otherwise. *)
Fixpoint title_from (previous_is_cased : bool) (s : string) : string :=
  match s with
  | EmptyString => EmptyString
  | String c r =>
      String (if previous_is_cased then to_lower c else to_upper c)
             (title_from (iscased c) r)
  end.

Definition py_title (s : string) : string := title_from false s.

(** A run of whitespace characters. *)
Fixpoint all_space (s : string) : bool :=
  match s with
  | EmptyString => true
  | String c r => isspace c && all_space r
  end.

(** The text starts with a character that [strip] keeps, or is empty. *)
Definition starts_clean (s : string) : Prop :=
  match s with
  | EmptyString => True
  | String c _ => isspace c = false
  end.

(* ===================================================================== *)
(** ** Cells *)
(* ===================================================================== *)

(** A float: a finite value or one of the two infinities.  The not-a-number
    float is the missing marker of [value]. *)
Inductive number : Type :=
  | NegInf
  | Fin (q : Q)
  | PosInf.

(** A cell of a table.  [NaN] stands for every object [pd.isna] accepts
    ([np.nan], [None], [NaT]); [Timestamp ns] is a datetime64 value,
    nanoseconds since 1970-01-01T00:00. *)
Inductive value : Type :=
  | NaN
  | Str (s : string)
  | Num (x : number)
  | Timestamp (ns : Z).

Definition isna (v : value) : bool :=
  match v with NaN => true | _ => false end.

(** [isinstance(x, str)] *)
Definition is_str (v : value) : bool :=
  match v with Str _ => true | _ => false end.

(** Python's [a <= b] on floats. *)
Definition num_le (a b : number) : bool :=
  match a, b with
  | NegInf, _ => true
  | _, PosInf => true
  | Fin p, Fin q => Qle_bool p q
  | _, _ => false
  end.

(** An integer literal of the source. *)
Definition int (z : Z) : number := Fin (inject_Z z).

(** The exceptions the model can raise. *)
Inductive exn : Type :=
  | KeyError (label : string)
  | AmbiguousLabel (label : string)
  | TypeError
  | AttributeError
  | OverflowError
  | InvalidReference.

Inductive outcome (A : Type) : Type :=
  | Ok (a : A)
  | Raise (e : exn).
Arguments Ok {A} a.
Arguments Raise {A} e.

(** [series.apply(f)] for an [f] that can raise. *)
Fixpoint series_apply (f : value -> outcome value) (s : list value) : outcome (list value) :=
  match s with
  | [] => Ok []
  | v :: s' =>
      match f v with
      | Ok w =>
          match series_apply f s' with
          | Ok ws => Ok (w :: ws)
          | Raise e => Raise e
          end
      | Raise e => Raise e
      end
  end.

(** [series.dropna()] *)
Definition dropna (s : list value) : list value :=
  List.filter (fun v => negb (isna v)) s.

(** What the code takes from pandas and from Python without fixing it:
    - the text [str] gives for a number and for a timestamp;
    - the number [pd.to_numeric] reads in a text, and the one it gives for
      a timestamp ([None]: not a number);
    - whether the [.str] accessor is given on a column that holds no text
      and is neither a column of numbers nor a column of dates (a column of
      missing values only, or numbers among dates);
    - what [pd.to_datetime(errors='coerce', unit='D')] does, on a given
      column, with a cell that is neither missing nor a whole number of
      days within the range of a datetime64[ns]: the instant it gives
      ([None]: [NaT]), or the exception it raises. *)
Class Pandas : Type := {
  str_number : number -> string;
  str_timestamp : Z -> string;
  parse_number : string -> option number;
  number_of_timestamp : Z -> option number;
  str_accessor_other : list value -> bool;
  to_datetime_other : list value -> value -> outcome (option Z)
}.

Section Cells.
Context `{Pandas}.

(** [str(x)] *)
Definition py_str (v : value) : string :=
  match v with
  | NaN => "nan"
  | Str s => s
  | Num x => str_number x
  | Timestamp t => str_timestamp t
  end.

(** index.py, lines 31-40. *)
Definition clean_gender (gender : value) : value :=
  if isna gender then NaN
  else
    let gender := py_lower (py_strip (py_str gender)) in
    if bool_decide (gender ∈ ["women"; "w"; "female"]) then Str "Female"
    else if bool_decide (gender ∈ ["men"; "m"; "male"]) then Str "Male"
    else NaN.

(** index.py, line 45. *)
Definition qty_map : gmap string value :=
  list_to_map
    [("one", Num (int 1)); ("two", Num (int 2)); ("three", Num (int 3));
     ("One", Num (int 1)); ("Two", Num (int 2)); ("Three", Num (int 3))].

(** [d.get(key, default)] *)
Definition dict_get (d : gmap string value) (key : string) (default : value) : value :=
  match d !! key with
  | Some v => v
  | None => default
  end.

(** index.py, line 46: the lambda applied to every Qty cell. *)
Definition qty_lambda (x : value) : value :=
  if is_str x then dict_get qty_map (py_lower (py_str x)) x else x.

(** [pd.to_numeric(..., errors='coerce')] on one cell: a number is kept, a
    text is parsed, a timestamp is counted from the epoch or not read
    either; what is not read is coerced to the missing marker. *)
Definition to_numeric (v : value) : value :=
  match v with
  | NaN => NaN
  | Num x => Num x
  | Str s =>
      match parse_number s with
      | Some x => Num x
      | None => NaN
      end
  | Timestamp ns =>
      match number_of_timestamp ns with
      | Some x => Num x
      | None => NaN
      end
  end.

(** index.py, lines 46-47: what the two assignments to [df['Qty']] do to
    a cell. *)
Definition normalize_quantity (x : value) : value := to_numeric (qty_lambda x).

(** [isinstance(x, (int, float))] and [isinstance(x, pd.Timestamp)] *)
Definition is_num (v : value) : bool :=
  match v with Num _ => true | _ => false end.

Definition is_timestamp (v : value) : bool :=
  match v with Timestamp _ => true | _ => false end.

(** Whether [series.str] is given: pandas raises [AttributeError] unless
    the values of the column are inferred to be texts, nothing at all, or a
    mix.  A column that holds a text has the accessor, and so has a column
    without cells; a column of numbers (with or without missing values) and
    a column of dates are refused.  On the columns that are left the
    answer depends on the dtype pandas gave them, and is the library's. *)
Definition str_accessor (column : list value) : bool :=
  if existsb is_str column then true
  else
    match column, dropna column with
    | [], _ => true
    | _, [] => str_accessor_other column
    | _, cells =>
        if forallb is_num cells || forallb is_timestamp cells then false
        else str_accessor_other column
    end.

(** [.str.strip()], [.str.title()] and [.replace(old, new)] on one cell of
    a column that has the accessor: the [.str] methods give the missing
    marker for a cell that is not a text. *)
Definition str_strip (v : value) : value :=
  match v with
  | Str s => Str (py_strip s)
  | _ => NaN
  end.

Definition str_title (v : value) : value :=
  match v with
  | Str s => Str (py_title s)
  | _ => NaN
  end.

Definition replace (to_replace : string) (new : value) (v : value) : value :=
  match v with
  | Str s => if String.eqb s to_replace then new else v
  | _ => v
  end.

(** index.py, line 50, on one cell. *)
Definition normalize_channel (v : value) : value :=
  replace "" NaN (str_title (str_strip v)).

(** index.py, line 50, on the column: the accessor is asked of the Channel
    column; the column [.str.strip()] returns is an object column of texts
    and missing values, which has it whenever the first one has. *)
Definition normalize_channel_column (column : list value) : outcome (list value) :=
  if str_accessor column then Ok (map normalize_channel column)
  else Raise AttributeError.

(** Nanoseconds in a day, and the range of a datetime64[ns]. *)
Definition NS_PER_DAY : Z := 86400 * 10 ^ 9.

Definition in_bounds (ns : Z) : bool :=
  (- (2 ^ 63 - 1) <=? ns) && (ns <=? 2 ^ 63 - 1).

Definition is_whole (q : Q) : bool := Z.rem (Qnum q) (Zpos (Qden q)) =? 0.

(** A count of days since the origin as an instant, when it is a whole
    number of days and the instant fits a datetime64[ns]; every other count
    is left to the library.  [pd.to_datetime] is called with [unit='D'] and
    no [origin], so the origin is its default, the Unix epoch. *)
Definition days_to_ns (x : number) : option Z :=
  match x with
  | Fin q =>
      let ns := Z.quot (Qnum q) (Zpos (Qden q)) * NS_PER_DAY in
      if is_whole q && in_bounds ns then Some ns else None
  | NegInf | PosInf => None
  end.

Definition of_instant (o : option Z) : value :=
  match o with
  | Some ns => Timestamp ns
  | None => NaN
  end.

(** A cell of a datetime column: a timestamp or [NaT]. *)
Definition is_instant (v : value) : bool :=
  match v with NaN | Timestamp _ => true | _ => false end.

(** What the library does with the cells it is left with. *)
Definition to_datetime_rest (column : list value) (v : value) : outcome value :=
  match to_datetime_other column v with
  | Ok o => Ok (of_instant o)
  | Raise e => Raise e
  end.

(** [pd.to_datetime(column, errors='coerce', unit='D')] on one cell of the
    column: a missing value stays missing, a whole number of days within
    range is counted from the epoch, a timestamp of a datetime column is
    kept. *)
Definition to_datetime_cell (column : list value) (v : value) : outcome value :=
  match v with
  | NaN => Ok NaN
  | Num x =>
      match days_to_ns x with
      | Some ns => Ok (Timestamp ns)
      | None => to_datetime_rest column v
      end
  | Timestamp ns =>
      if forallb is_instant column then Ok (Timestamp ns)
      else to_datetime_rest column v
  | Str s => to_datetime_rest column v
  end.

(** [pd.to_datetime(column, errors='coerce', unit='D')]: the call raises
    when a cell makes it raise. *)
Definition to_datetime (column : list value) : outcome (list value) :=
  series_apply (to_datetime_cell column) column.

(** index.py, line 54. *)
Definition normalize_date : list value -> outcome (list value) := to_datetime.

(** index.py, lines 58-68.  Comparing a text or a timestamp with an
    integer raises [TypeError]. *)
Definition get_age_group (age : value) : outcome value :=
  if isna age then Ok NaN
  else
    match age with
    | Num age =>
        if num_le (int 3) age && num_le age (int 18) then Ok (Str "Teenager")
        else if num_le (int 19) age && num_le age (int 64) then Ok (Str "Adult")
        else if num_le (int 65) age then Ok (Str "Senior")
        else Ok (Str "Other")
    | _ => Raise TypeError
    end.

End Cells.

(* ===================================================================== *)
(** ** Tables *)
(* ===================================================================== *)

(** A [DataFrame]: the length of its index and its labelled columns, in
    order.  pandas allows a label to occur more than once. *)
Record DataFrame : Type := {
  nrows : nat;
  columns : list (string * list value)
}.

Definition labels (df : DataFrame) : list string := map fst (columns df).

(** Every column has one cell per row. *)
Definition well_formed (df : DataFrame) : Prop :=
  Forall (fun kc => length (snd kc) = nrows df) (columns df).

Definition has_label (key : string) (df : DataFrame) : bool :=
  existsb (fun kc => String.eqb (fst kc) key) (columns df).

(** [df.rename(columns={old: new})] *)
Definition rename_columns (old new : string) (df : DataFrame) : DataFrame :=
  {| nrows := nrows df;
     columns := map (fun kc => (if String.eqb (fst kc) old then new else fst kc, snd kc))
                    (columns df) |}.

(** [df[key]] as a Series: the label has to be there ([KeyError]).  A
    label that occurs twice selects a frame instead of a Series, which the
    steps of [clean_data] are not written for; the model raises there. *)
Definition frame_get (key : string) (df : DataFrame) : outcome (list value) :=
  match List.filter (fun kc => String.eqb (fst kc) key) (columns df) with
  | [] => Raise (KeyError key)
  | [kc] => Ok (snd kc)
  | _ => Raise (AmbiguousLabel key)
  end.

(** What [frame_set] does to one labelled column. *)
Definition put (key : string) (series : list value) (kc : string * list value) :
    string * list value :=
  if String.eqb (fst kc) key then (key, series) else kc.

(** [df[key] = series]: every column of that label is overwritten where it
    stands; a new label is appended as the last column. *)
Definition frame_set (key : string) (series : list value) (df : DataFrame) : DataFrame :=
  {| nrows := nrows df;
     columns :=
       if has_label key df then map (put key series) (columns df)
       else columns df ++ [(key, series)] |}.

(* ===================================================================== *)
(** ** The interpreter state and its monad *)
(* ===================================================================== *)

Definition loc : Type := positive.

(** What a Python variable such as [df] can hold here. *)
Inductive pyobj : Type :=
  | PyNone
  | PyRef (l : loc).

(** What reaches the standard output: a [print]ed text, or the report
    [df.info()] writes about the frame as it then is. *)
Inductive output : Type :=
  | Line (text : string)
  | InfoReport (df : DataFrame).

Record state : Type := {
  heap : gmap loc DataFrame;
  stdout : list output
}.

Definition M (A : Type) : Type := state -> outcome A * state.

#[global] Instance outcome_ret : MRet outcome := fun _ a => Ok a.
#[global] Instance outcome_bind : MBind outcome := fun _ _ f m =>
  match m with
  | Ok a => f a
  | Raise e => Raise e
  end.

#[global] Instance M_ret : MRet M := fun _ a st => (Ok a, st).
#[global] Instance M_bind : MBind M := fun _ _ f m st =>
  match m st with
  | (Ok a, st') => f a st'
  | (Raise e, st') => (Raise e, st')
  end.

Definition lift {A} (o : outcome A) : M A := fun st => (o, st).

Definition print (text : string) : M unit := fun st =>
  (Ok tt, {| heap := heap st; stdout := stdout st ++ [Line text] |}).

(** Run [f] on the frame a reference points to, in place. *)
Definition update (df : loc) (f : DataFrame -> DataFrame) : M unit := fun st =>
  match heap st !! df with
  | Some t => (Ok tt, {| heap := <[df := f t]> (heap st); stdout := stdout st |})
  | None => (Raise InvalidReference, st)
  end.

Definition rename_inplace (df : loc) (old new : string) : M unit :=
  update df (rename_columns old new).

Definition getitem (df : loc) (key : string) : M (list value) := fun st =>
  match heap st !! df with
  | Some t => (frame_get key t, st)
  | None => (Raise InvalidReference, st)
  end.

Definition setitem (df : loc) (key : string) (series : list value) : M unit :=
  update df (frame_set key series).

Definition info (df : loc) : M unit := fun st =>
  match heap st !! df with
  | Some t => (Ok tt, {| heap := heap st; stdout := stdout st ++ [InfoReport t] |})
  | None => (Raise InvalidReference, st)
  end.

Definition NL : string := String "010" EmptyString.

(** What a successful [clean_data] writes about the cleaned frame. *)
Definition report (t' : DataFrame) : list output :=
  [Line (NL +:+ "Dataset Info After Cleaning:"); InfoReport t'].

Section CleanData.
Context `{Pandas}.

(** index.py, lines 24-74. *)
Definition clean_data (df : pyobj) : M pyobj :=
  match df with
  | PyNone =>
      print "Error: No data to clean." ;;
      mret PyNone
  | PyRef df =>
      rename_inplace df "Channel " "Channel" ;;
      gender ← getitem df "Gender";
      setitem df "Gender" (map clean_gender gender) ;;
      qty ← getitem df "Qty";
      setitem df "Qty" (map qty_lambda qty) ;;
      qty ← getitem df "Qty";
      setitem df "Qty" (map to_numeric qty) ;;
      channel ← getitem df "Channel";
      channel ← lift (normalize_channel_column channel);
      setitem df "Channel" channel ;;
      age ← getitem df "Age";
      setitem df "Age" (map to_numeric age) ;;
      date ← getitem df "Date";
      date ← lift (to_datetime date);
      setitem df "Date" date ;;
      amount ← getitem df "Amount";
      setitem df "Amount" (map to_numeric amount) ;;
      age ← getitem df "Age";
      age_group ← lift (series_apply get_age_group age);
      setitem df "Age Group" age_group ;;
      print (NL +:+ "Dataset Info After Cleaning:") ;;
      info df ;;
      mret (PyRef df)
  end.

(** The same steps on the frame alone: what [clean_data] leaves in the
    frame it was given (see [clean_data_run]). *)
Definition clean_frame (t : DataFrame) : outcome DataFrame :=
  let t := rename_columns "Channel " "Channel" t in
  gender ← frame_get "Gender" t;
  let t := frame_set "Gender" (map clean_gender gender) t in
  qty ← frame_get "Qty" t;
  let t := frame_set "Qty" (map qty_lambda qty) t in
  qty ← frame_get "Qty" t;
  let t := frame_set "Qty" (map to_numeric qty) t in
  channel ← frame_get "Channel" t;
  channel ← normalize_channel_column channel;
  let t := frame_set "Channel" channel t in
  age ← frame_get "Age" t;
  let t := frame_set "Age" (map to_numeric age) t in
  date ← frame_get "Date" t;
  date ← to_datetime date;
  let t := frame_set "Date" date t in
  amount ← frame_get "Amount" t;
  let t := frame_set "Amount" (map to_numeric amount) t in
  age ← frame_get "Age" t;
  age_group ← series_apply get_age_group age;
  Ok (frame_set "Age Group" age_group t).

(** The frame after the eight assignments of [clean_data], from the raw
    columns, the converted Date column and the Age Group column. *)
Definition assemble (t0 : DataFrame)
    (gender qty channel age date amount age_group : list value) : DataFrame :=
  frame_set "Age Group" age_group
    (frame_set "Amount" (map to_numeric amount)
      (frame_set "Date" date
        (frame_set "Age" (map to_numeric age)
          (frame_set "Channel" (map normalize_channel channel)
            (frame_set "Qty" (map to_numeric (map qty_lambda qty))
              (frame_set "Qty" (map qty_lambda qty)
                (frame_set "Gender" (map clean_gender gender) t0))))))).

End CleanData.

(* ===================================================================== *)
(** ** Calendar reading of an instant *)
(* ===================================================================== *)

(** The proleptic Gregorian date (year, month, day) of the day that lies
    [z] days after 1970-01-01, and the converse count. *)
Definition civil_from_days (z : Z) : Z * Z * Z :=
  let z := z + 719468 in
  let era := z / 146097 in
  let doe := z - era * 146097 in
  let yoe := (doe - doe / 1460 + doe / 36524 - doe / 146096) / 365 in
  let doy := doe - (365 * yoe + yoe / 4 - yoe / 100) in
  let mp := (5 * doy + 2) / 153 in
  let d := doy - (153 * mp + 2) / 5 + 1 in
  let m := if mp <? 10 then mp + 3 else mp - 9 in
  (yoe + era * 400 + (if m <=? 2 then 1 else 0), m, d).





(* ===================================================================== *)
(** ** A library instance to run examples with *)
(* ===================================================================== *)

Definition digit (c : ascii) : option Z :=
  if ((48 <=? code c) && (code c <=? 57))%nat then Some (Z.of_nat (code c) - 48) else None.

(** Digits with at most one point and at least one digit. *)
Fixpoint scan_decimal (s : string) (mantissa : Z) (scale : positive)
    (seen_point seen_digit : bool) : option Q :=
  match s with
  | EmptyString => if seen_digit then Some (mantissa # scale) else None
  | String c r =>
      match digit c with
      | Some d =>
          scan_decimal r (10 * mantissa + d)
                       (if seen_point then (10 * scale)%positive else scale)
                       seen_point true
      | None =>
          if Ascii.eqb c "." && negb seen_point
          then scan_decimal r mantissa scale true seen_digit
          else None
      end
  end.

Definition read_decimal (s : string) : option number :=
  match s with
  | String "-" r => Fin <$> (Qopp <$> scan_decimal r 0 1 false false)
  | _ => Fin <$> scan_decimal s 0 1 false false
  end.

Definition show_Z (z : Z) : string := NilZero.string_of_int (Z.to_int z).

Definition pad2 (z : Z) : string :=
  if z <? 10 then "0" +:+ show_Z z else show_Z z.

(** The digits after the point of [num / den], at most [fuel] of them. *)
Fixpoint show_fraction (fuel : nat) (num den : Z) : string :=
  match fuel with
  | O => EmptyString
  | S fuel' =>
      if num =? 0 then EmptyString
      else show_Z (10 * num / den) +:+ show_fraction fuel' (10 * num mod den) den
  end.

Definition show_number (x : number) : string :=
  match x with
  | NegInf => "-inf"
  | PosInf => "inf"
  | Fin q =>
      let n := Z.abs (Qnum q) in
      let d := Zpos (Qden q) in
      (if Qnum q <? 0 then "-" else "") +:+ show_Z (n / d) +:+ "." +:+
      (if n mod d =? 0 then "0" else show_fraction 17 (n mod d) d)
  end.

Definition show_timestamp (ns : Z) : string :=
  let '(y, m, d) := civil_from_days (ns / NS_PER_DAY) in
  let s := (ns mod NS_PER_DAY) / 10 ^ 9 in
  show_Z y +:+ "-" +:+ pad2 m +:+ "-" +:+ pad2 d +:+ " " +:+
  pad2 (s / 3600) +:+ ":" +:+ pad2 (s mod 3600 / 60) +:+ ":" +:+ pad2 (s mod 60).

(** An instance after pandas 2.  Numbers are read in plain decimal
    notation and a timestamp is not read as a number.  A column of missing
    values only is a float column, on which the accessor is refused;
    numbers among dates make an object column, which has it.  A finite day
    count is cut to the nanosecond below and gives [NaT] out of range, an
    infinite one raises [OverflowError]; no text is read as a date, nor is
    a timestamp among cells of another kind. *)
Definition decimal_pandas : Pandas := {|
  str_number := show_number;
  str_timestamp := show_timestamp;
  parse_number := read_decimal;
  number_of_timestamp := fun _ => None;
  str_accessor_other := fun column => negb (forallb isna column);
  to_datetime_other := fun _ v =>
    match v with
    | Num (Fin q) =>
        let ns := Qnum q * NS_PER_DAY / Zpos (Qden q) in
        Ok (if in_bounds ns then Some ns else None)
    | Num _ => Raise OverflowError
    | _ => Ok None
    end
|}.

(** A table as the loader may hand it over: the Channel header carries its
    trailing space, and the cells are still raw. *)
Definition raw_table : DataFrame := {|
  nrows := 3;
  columns :=
    [("Channel ", [Str " myntra "; Str ""; Num (int 7)]);
     ("Gender", [Str "W"; Str " Men"; Str "x"]);
     ("Qty", [Str "One"; Num (int 2); Str "banana"]);
     ("Age", [Str "45"; Num (int 10); NaN]);
     ("Date", [Num (int 44562); Num (int 0); Str "soon"]);
     ("Amount", [Str "250.5"; Num (int 399); Str "-"]);
     ("Status", [Str "Delivered"; Str "Cancelled"; NaN])]
|}.

(** A table whose only Channel cell is blank, and a table whose Channel
    cells are numbers. *)
Definition blank_channel_table : DataFrame := {|
  nrows := 1;
  columns :=
    [("Channel", [Str ""]); ("Gender", [Str "women"]); ("Qty", [Num (int 1)]);
     ("Age", [Num (int 30)]); ("Date", [Num (int 19000)]); ("Amount", [Num (int 100)])]
|}.

Definition numbered_channel_table : DataFrame := {|
  nrows := 2;
  columns :=
    [("Channel", [Num (int 7); Num (int 8)]); ("Gender", [Str "m"; Str "w"]);
     ("Qty", [Num (int 1); Num (int 2)]); ("Age", [Num (int 30); Num (int 40)]);
     ("Date", [Num (int 0); Num (int 1)]); ("Amount", [Num (int 100); Num (int 200)])]
|}.

(** The same table with a column Age Group already in it. *)
Definition grouped_table : DataFrame := {|
  nrows := 3;
  columns := columns raw_table ++ [("Age Group", [NaN; NaN; Str "Adult"])]
|}.

Definition initial_state (t : DataFrame) : state :=
  {| heap := {[ 1%positive := t ]}; stdout := [] |}.

(* ===================================================================== *)
(** ** The rest of the script: loading, the two consumers, [main] *)
(* ===================================================================== *)

(** How often a label occurs among the columns. *)
Definition occurrences (key : string) (df : DataFrame) : nat :=
  length (List.filter (fun kc => String.eqb (fst kc) key) (columns df)).

(** The labels [clean_data] reads, in the order it reads them. *)
Definition required : list string :=
  ["Gender"; "Qty"; "Channel"; "Age"; "Date"; "Amount"].

(** The labels [clean_data] reads, renames or writes. *)
Definition touched : list string :=
  ["Channel "; "Channel"; "Gender"; "Qty"; "Age"; "Date"; "Amount"; "Age Group"].

(** The Channel column, where there is one, holds a text: pandas gives
    the [.str] accessor of line 50 on it. *)
Definition channel_holds_text (t : DataFrame) : Prop :=
  forall channel,
    frame_get "Channel" (rename_columns "Channel " "Channel" t) = Ok channel ->
    exists s, In (Str s) channel.

(** index.py, line 45 without its three capitalised entries. *)
Definition qty_map_lower : gmap string value :=
  list_to_map [("one", Num (int 1)); ("two", Num (int 2)); ("three", Num (int 3))].

(** The canonical domains of the cleaned columns. *)
Definition is_gender (v : value) : Prop :=
  v = NaN \/ v = Str "Female" \/ v = Str "Male".

Definition is_numeric (v : value) : Prop :=
  v = NaN \/ exists x, v = Num x.

Definition is_channel (v : value) : Prop :=
  v = NaN \/
  exists s, v = Str s /\ s <> "" /\ py_strip s = s /\ py_title s = s.

Definition is_date (v : value) : Prop :=
  v = NaN \/ exists ns, v = Timestamp ns.

(** A Date cell that is missing or a whole number of days that fits a
    datetime64[ns], and the tables whose Date column, where there is one,
    holds such cells only, or dates and missing values only. *)
Definition is_day_count (v : value) : Prop :=
  v = NaN \/ exists d, v = Num (int d) /\ -106751 <= d <= 106751.

Definition dates_are_read (t : DataFrame) : Prop :=
  forall date,
    frame_get "Date" (rename_columns "Channel " "Channel" t) = Ok date ->
    Forall is_day_count date \/ Forall is_date date.

Definition is_age_group (v : value) : Prop :=
  v = NaN \/ v = Str "Teenager" \/ v = Str "Adult" \/ v = Str "Senior" \/ v = Str "Other".

(** What [pd.read_excel] can do with a path: hand over a table, raise
    [FileNotFoundError], or raise another exception, with its message. *)
Inductive read_result : Type :=
  | Loaded (t : DataFrame)
  | FileNotFoundError
  | OtherException (message : string).

(** The parts of the script that compute in floating point or draw: the
    reader of the spreadsheet, the variance and t tests of lines 90-100 with
    the lines they print, the tests of lines 104-137, and the charts of
    lines 150-197.  They may print, raise and touch the table.  A table the
    reader hands over has one cell per row in every column. *)
Class Collaborators : Type := {
  read_excel : string -> read_result;
  read_excel_well_formed :
    forall file_path t, read_excel file_path = Loaded t -> well_formed t;
  gender_test : list value -> list value -> M unit;
  remaining_tests : loc -> M unit;
  render_charts : loc -> M unit
}.

(** A new object: a table stored where no object lives yet. *)
Definition alloc (t : DataFrame) : M loc := fun st =>
  let l := fresh (dom (heap st)) in
  (Ok l, {| heap := <[l := t]> (heap st); stdout := stdout st |}).

(** Evaluate an expression on the frame behind a reference. *)
Definition read {A} (df : loc) (f : DataFrame -> outcome A) : M A := fun st =>
  match heap st !! df with
  | Some t => (f t, st)
  | None => (Raise InvalidReference, st)
  end.

(** [df.empty]: one of the two axes has length 0. *)
Definition frame_empty (t : DataFrame) : bool :=
  (nrows t =? 0)%nat || (length (columns t) =? 0)%nat.

(** [series == text], cell by cell. *)
Definition eq_text (text : string) (v : value) : bool :=
  match v with
  | Str s => String.eqb s text
  | _ => false
  end.

(** The cells of a column in the rows a mask selects. *)
Fixpoint take_rows (mask : list bool) (s : list value) : list value :=
  match mask, s with
  | b :: mask', v :: s' => if b then v :: take_rows mask' s' else take_rows mask' s'
  | _, _ => []
  end.

(** [df[mask]]: a new frame with the selected rows of every column. *)
Definition boolean_index (mask : list bool) (t : DataFrame) : DataFrame :=
  {| nrows := length (List.filter (fun b : bool => b) mask);
     columns := map (fun kc => (fst kc, take_rows mask (snd kc))) (columns t) |}.

(** index.py, lines 85-86: [df[df['Gender'] == gender]['Amount'].dropna()]. *)
Definition sales_of (gender : string) (t : DataFrame) : outcome (list value) :=
  column ← frame_get "Gender" t;
  amount ← frame_get "Amount" (boolean_index (map (eq_text gender) column) t);
  Ok (dropna amount).

(** index.py, lines 145-148, on a tick that is a whole number.  Below 2^53
    the float quotient [x/1000] and the exact one have the same integer
    part. *)
Definition thousands_formatter (x : Z) : string :=
  if 1000 <=? x then show_Z (x / 1000) +:+ "K" else show_Z x.

Section Steps.
Context `{Pandas}.

(** A step that acts cell by cell and does not raise. *)
Definition cellwise (f : value -> value) (column : list value) : outcome (list value) :=
  Ok (map f column).

(** The seven assignments of index.py, lines 42-55: the column each one
    reads and writes, and what it does to it. *)
Definition steps : list (string * (list value -> outcome (list value))) :=
  [("Gender", cellwise clean_gender); ("Qty", cellwise qty_lambda);
   ("Qty", cellwise to_numeric); ("Channel", normalize_channel_column);
   ("Age", cellwise to_numeric); ("Date", to_datetime);
   ("Amount", cellwise to_numeric)].

(** Run assignments in order on a frame: the frame they leave, and the
    exception that stopped them, if one did. *)
Fixpoint run_steps (todo : list (string * (list value -> outcome (list value))))
    (t : DataFrame) : DataFrame * option exn :=
  match todo with
  | [] => (t, None)
  | (key, f) :: todo' =>
      match frame_get key t with
      | Ok series =>
          match f series with
          | Ok series => run_steps todo' (frame_set key series t)
          | Raise e => (t, Some e)
          end
      | Raise e => (t, Some e)
      end
  end.

(** What the whole of a label's assignments does to its column. *)
Definition step_of (key : string) : list value -> outcome (list value) :=
  if String.eqb key "Gender" then cellwise clean_gender
  else if String.eqb key "Qty" then cellwise normalize_quantity
  else if String.eqb key "Channel" then normalize_channel_column
  else if String.eqb key "Age" then cellwise to_numeric
  else if String.eqb key "Date" then normalize_date
  else if String.eqb key "Amount" then cellwise to_numeric
  else Ok.

(** What the assignments of a list do, one after the other, to the column
    [key]. *)
Fixpoint through (key : string)
    (todo : list (string * (list value -> outcome (list value))))
    (column : list value) : outcome (list value) :=
  match todo with
  | [] => Ok column
  | (key', f) :: todo' =>
      if String.eqb key' key then f column ≫= through key todo'
      else through key todo' column
  end.

End Steps.

Section Script.
Context `{Pandas} `{Collaborators}.

(** index.py, lines 12-22. *)
Definition load_data (file_path : string) : M pyobj :=
  match read_excel file_path with
  | Loaded t =>
      df ← alloc t;
      print "Data loaded successfully." ;;
      mret (PyRef df)
  | FileNotFoundError =>
      print ("Error: File " +:+ file_path +:+ " not found.") ;;
      mret PyNone
  | OtherException e =>
      print ("Error loading data: " +:+ e) ;;
      mret PyNone
  end.

(** index.py, lines 76-137. *)
Definition hypothesis_testing (df : pyobj) : M unit :=
  match df with
  | PyNone => print "Error: No data for hypothesis testing."
  | PyRef df =>
      empty ← read df (fun t => Ok (frame_empty t));
      if empty : bool then print "Error: No data for hypothesis testing."
      else
        print (NL +:+ "=== Hypothesis Testing ===") ;;
        print (NL +:+ "Test 1: Difference in Sales Amount Between Genders") ;;
        female_sales ← read df (sales_of "Female");
        male_sales ← read df (sales_of "Male");
        (if (0 <? length female_sales)%nat && (0 <? length male_sales)%nat
         then gender_test female_sales male_sales
         else print "Error: Insufficient data for gender sales test.") ;;
        remaining_tests df
  end.

(** index.py, lines 139-197. *)
Definition visualize_data (df : pyobj) : M unit :=
  match df with
  | PyNone => print "Error: No data for visualization."
  | PyRef df =>
      empty ← read df (fun t => Ok (frame_empty t));
      if empty : bool then print "Error: No data for visualization."
      else render_charts df
  end.

Definition FILE_PATH : string := "E:\Python Project 1\Vrinda Store Data Analysis.xlsx".

(** index.py, lines 199-212. *)
Definition main : M unit :=
  df ← load_data FILE_PATH;
  df ← clean_data df;
  hypothesis_testing df ;;
  visualize_data df ;;
  print (NL +:+ "Data cleaning, hypothesis testing, and visualizations completed successfully.").

End Script.

#[global] Instance well_formed_dec (t : DataFrame) : Decision (well_formed t) :=
  decide (Forall (fun kc => length (snd kc) = nrows t) (columns t)).

(** What a reader finds at a path where the file holds [t], or where there
    is no file; columns of unequal length are not a table. *)
Definition read_file (file : option DataFrame) : read_result :=
  match file with
  | Some t =>
      if decide (well_formed t) then Loaded t
      else OtherException "arrays must all be same length"
  | None => FileNotFoundError
  end.

(** Collaborators to run examples with: the file holds [t], or is not
    there; the tests and the charts print one line each. *)
Definition with_file (file : option DataFrame) : Collaborators.
Proof.
  refine {| read_excel := fun _ => read_file file;
            gender_test := fun _ _ => print "T-test";
            remaining_tests := fun _ => print "ANOVA and chi-square";
            render_charts := fun _ => print "charts" |}.
  intros _ t. unfold read_file. destruct file as [u |]; [| discriminate].
  destruct (decide (well_formed u)) as [Hu |]; [| discriminate].
  intros [= <-]. exact Hu.
Defined.

(** A table with its header row and no record. *)
Definition header_only : DataFrame := {|
  nrows := 0;
  columns :=
    [("Channel ", []); ("Gender", []); ("Qty", []); ("Age", []);
     ("Date", []); ("Amount", []); ("Status", [])]
|}.

(** A table without the column Qty. *)
Definition no_qty_table : DataFrame := {|
  nrows := 1;
  columns :=
    [("Channel", [Str "Ajio"]); ("Gender", [Str "men"]); ("Age", [Num (int 30)]);
     ("Date", [NaN]); ("Amount", [Num (int 100)])]
|}.

(* ===================================================================== *)
(** ** Facts about Python text *)
(* ===================================================================== *)

Ltac by_cases_on_char c :=
  destruct c as [[] [] [] [] [] [] [] []]; vm_compute; congruence.

Lemma isspace_to_lower c : isspace (to_lower c) = isspace c.
Proof. by_cases_on_char c. Qed.

Lemma isspace_to_upper c : isspace (to_upper c) = isspace c.
Proof. by_cases_on_char c. Qed.

Lemma iscased_to_lower c : iscased (to_lower c) = iscased c.
Proof. by_cases_on_char c. Qed.

Lemma iscased_to_upper c : iscased (to_upper c) = iscased c.
Proof. by_cases_on_char c. Qed.

Lemma to_lower_idem c : to_lower (to_lower c) = to_lower c.
Proof. by_cases_on_char c. Qed.

Lemma to_upper_idem c : to_upper (to_upper c) = to_upper c.
Proof. by_cases_on_char c. Qed.

Lemma to_lower_not_upper c : isupper (to_lower c) = false.
Proof. by_cases_on_char c. Qed.

Create Rewrite HintDb chars.
#[local] Hint Rewrite isspace_to_lower isspace_to_upper iscased_to_lower
  iscased_to_upper to_lower_idem to_upper_idem : chars.

Lemma append_nil s : "" +:+ s = s.
Proof. reflexivity. Qed.

Lemma append_cons c a s : String c a +:+ s = String c (a +:+ s).
Proof. reflexivity. Qed.

Lemma append_assoc a t b : a +:+ t +:+ b = (a +:+ t) +:+ b.
Proof. induction a as [|c a IH]; [done | by rewrite !append_cons, IH]. Qed.

Lemma lower_app a b : py_lower (a +:+ b) = py_lower a +:+ py_lower b.
Proof. induction a as [|c a IH]; [done | rewrite !append_cons; simpl; by rewrite IH]. Qed.

Lemma lower_idem s : py_lower (py_lower s) = py_lower s.
Proof. induction s as [|c s IH]; simpl; [done | by rewrite IH, to_lower_idem]. Qed.

Lemma all_space_lower s : all_space (py_lower s) = all_space s.
Proof. induction s as [|c s IH]; simpl; [done | by rewrite IH, isspace_to_lower]. Qed.

Lemma lstrip_lower s : py_lstrip (py_lower s) = py_lower (py_lstrip s).
Proof.
  induction s as [|c s IH]; simpl; [done |].
  rewrite isspace_to_lower. by destruct (isspace c).
Qed.

Lemma rstrip_lower s : py_rstrip (py_lower s) = py_lower (py_rstrip s).
Proof.
  induction s as [|c s IH]; simpl; [done |].
  rewrite IH, isspace_to_lower.
  destruct (py_rstrip s); simpl; [by destruct (isspace c) | done].
Qed.

Lemma strip_lower s : py_strip (py_lower s) = py_lower (py_strip s).
Proof. unfold py_strip. by rewrite rstrip_lower, lstrip_lower. Qed.

Lemma lstrip_starts_clean s : starts_clean (py_lstrip s).
Proof.
  induction s as [|c s IH]; simpl; [done |].
  destruct (isspace c) eqn:E; [done | by simpl].
Qed.

Lemma lstrip_id s : starts_clean s -> py_lstrip s = s.
Proof. destruct s as [|c s]; simpl; [done | by intros ->]. Qed.

Lemma lstrip_spaces a s : all_space a = true -> py_lstrip (a +:+ s) = py_lstrip s.
Proof.
  induction a as [|c a IH]; [done |].
  rewrite append_cons; simpl. intros [-> Ha]%andb_true_iff. auto.
Qed.

Lemma rstrip_spaces s b : all_space b = true -> py_rstrip (s +:+ b) = py_rstrip s.
Proof.
  intros Hb.
  assert (Hnil : py_rstrip b = EmptyString).
  { induction b as [|c b IH]; simpl in *; [done |].
    apply andb_true_iff in Hb as [-> Hb]. by rewrite IH. }
  induction s as [|c s IH]; [done | rewrite append_cons; simpl; by rewrite IH].
Qed.

Lemma rstrip_nonempty c s : py_rstrip s = s -> s <> EmptyString ->
  py_rstrip (String c s) = String c s.
Proof. intros Hs Hne. simpl. rewrite Hs. destruct s; [congruence | done]. Qed.

Lemma rstrip_app a s : py_rstrip s = s -> s <> EmptyString ->
  py_rstrip (a +:+ s) = a +:+ s.
Proof.
  intros Hs Hne. induction a as [|c a IH]; [done |].
  rewrite append_cons. apply rstrip_nonempty; [done |].
  destruct a; [done | by rewrite append_cons].
Qed.

Lemma rstrip_idem s : py_rstrip (py_rstrip s) = py_rstrip s.
Proof.
  induction s as [|c s IH]; simpl; [done |].
  destruct (py_rstrip s) as [|c' r] eqn:E.
  - destruct (isspace c) eqn:Ec; simpl; [done | by rewrite Ec].
  - change (py_rstrip (String c (String c' r)) = String c (String c' r)).
    by apply rstrip_nonempty.
Qed.

(** Cutting whitespace at the front keeps a clean end clean. *)
Lemma rstrip_lstrip s : py_rstrip s = s -> py_rstrip (py_lstrip s) = py_lstrip s.
Proof.
  induction s as [|c s IH]; simpl; [done |].
  destruct (isspace c) eqn:Ec.
  - destruct (py_rstrip s) as [|c' r] eqn:E; [discriminate |].
    intros [= Hr]. apply IH. congruence.
  - intros Hs. simpl. by rewrite Ec.
Qed.

Lemma strip_starts_clean s : starts_clean (py_strip s).
Proof. apply lstrip_starts_clean. Qed.

Lemma strip_ends_clean s : py_rstrip (py_strip s) = py_strip s.
Proof. apply rstrip_lstrip, rstrip_idem. Qed.

Lemma strip_id s : starts_clean s -> py_rstrip s = s -> py_strip s = s.
Proof. unfold py_strip. intros Hl ->. by apply lstrip_id. Qed.

Lemma strip_idem s : py_strip (py_strip s) = py_strip s.
Proof. apply strip_id; [apply strip_starts_clean | apply strip_ends_clean]. Qed.

(** A text that [strip] would keep, wrapped in whitespace, is what [strip]
    gives back. *)
Lemma strip_padded a t b :
  all_space a = true -> all_space b = true ->
  starts_clean t -> py_rstrip t = t -> t <> EmptyString ->
  py_strip (a +:+ t +:+ b) = t.
Proof.
  intros Ha Hb Hl Hr Hne. unfold py_strip.
  rewrite append_assoc, rstrip_spaces, rstrip_app, lstrip_spaces by done.
  by apply lstrip_id.
Qed.

Lemma title_from_idem b s : title_from b (title_from b s) = title_from b s.
Proof.
  revert b. induction s as [|c s IH]; intros b; simpl; [done |].
  destruct b; autorewrite with chars; by rewrite IH.
Qed.

Lemma title_from_starts_clean b s : starts_clean s -> starts_clean (title_from b s).
Proof. destruct s as [|c s]; simpl; [done |]. destruct b; by autorewrite with chars. Qed.

Lemma rstrip_title b s : py_rstrip (title_from b s) = title_from b (py_rstrip s).
Proof.
  revert b. induction s as [|c s IH]; intros b; simpl; [done |].
  rewrite IH. destruct (py_rstrip s) as [|c' r]; simpl.
  - destruct b; autorewrite with chars; by destruct (isspace c).
  - done.
Qed.

Lemma title_empty b s : title_from b s = EmptyString <-> s = EmptyString.
Proof. destruct s; simpl; split; congruence. Qed.

(** What line 50 leaves in a text cell is kept by a second pass. *)
Lemma strip_title_strip s : py_strip (py_title (py_strip s)) = py_title (py_strip s).
Proof.
  unfold py_title. apply strip_id.
  - apply title_from_starts_clean, strip_starts_clean.
  - by rewrite rstrip_title, strip_ends_clean.
Qed.

Lemma lower_no_upper s c r : py_lower s = String c r -> isupper c = false.
Proof. destruct s as [|c' s]; simpl; [done |]. intros [= <- _]. apply to_lower_not_upper. Qed.

Lemma series_apply_id f s :
  Forall (fun v => f v = Ok v) s -> series_apply f s = Ok s.
Proof. induction 1 as [|v s Hv _ IH]; simpl; [done | by rewrite Hv, IH]. Qed.

Lemma series_apply_range (P : value -> Prop) f s r :
  (forall v w, f v = Ok w -> P w) -> series_apply f s = Ok r -> Forall P r.
Proof.
  intros Hf. revert r. induction s as [|v s IH]; simpl; intros r.
  - intros [= <-]. constructor.
  - destruct (f v) as [w | ?] eqn:E; [| done].
    destruct (series_apply f s) as [ws | ?]; [| done].
    intros [= <-]. constructor; [by eapply Hf | by apply IH].
Qed.

Lemma series_apply_Forall2 f s r :
  series_apply f s = Ok r -> Forall2 (fun a g => f a = Ok g) s r.
Proof.
  revert r. induction s as [|v s IH]; simpl; intros r.
  - intros [= <-]. constructor.
  - destruct (f v) as [w | ?] eqn:E; [| done].
    destruct (series_apply f s) as [ws | ?]; [| done].
    intros [= <-]. constructor; [done | by apply IH].
Qed.

Lemma series_apply_length f s r : series_apply f s = Ok r -> length r = length s.
Proof.
  revert r. induction s as [|v s IH]; simpl; intros r.
  - by intros [= <-].
  - destruct (f v); [| done]. destruct (series_apply f s); [| done].
    intros [= <-]. simpl. f_equal. by apply IH.
Qed.

(* ===================================================================== *)
(** ** Cell-level facts *)
(* ===================================================================== *)

Section CellFacts.
Context `{Pandas}.

Lemma clean_gender_range v :
  clean_gender v = NaN \/ clean_gender v = Str "Female" \/ clean_gender v = Str "Male".
Proof.
  unfold clean_gender. destruct (isna v); [by left |].
  repeat case_bool_decide; auto.
Qed.

Lemma clean_gender_idem v : clean_gender (clean_gender v) = clean_gender v.
Proof. destruct (clean_gender_range v) as [-> | [-> | ->]]; reflexivity. Qed.

Lemma to_numeric_range v : to_numeric v = NaN \/ exists x, to_numeric v = Num x.
Proof.
  destruct v as [| s | x | ns]; simpl; eauto.
  - destruct (parse_number s); eauto.
  - destruct (number_of_timestamp ns); eauto.
Qed.

Lemma to_numeric_idem v : to_numeric (to_numeric v) = to_numeric v.
Proof. by destruct (to_numeric_range v) as [-> | [x ->]]. Qed.

Lemma qty_lambda_to_numeric v : qty_lambda (to_numeric v) = to_numeric v.
Proof. by destruct (to_numeric_range v) as [-> | [x ->]]. Qed.

(** [.str] is given on a column that holds a text. *)
Lemma str_accessor_text column s : In (Str s) column -> str_accessor column = true.
Proof.
  intros Hin. unfold str_accessor.
  assert (Htext : existsb is_str column = true).
  { apply existsb_exists. by exists (Str s). }
  by rewrite Htext.
Qed.

Lemma normalize_channel_column_inv column column' :
  normalize_channel_column column = Ok column' ->
  str_accessor column = true /\ column' = map normalize_channel column.
Proof.
  unfold normalize_channel_column. destruct (str_accessor column); [| done].
  by intros [= <-].
Qed.

Lemma to_datetime_rest_range column v w :
  to_datetime_rest column v = Ok w -> is_instant w = true.
Proof.
  unfold to_datetime_rest. destruct (to_datetime_other column v) as [[ns |] | e];
    by intros [= <-].
Qed.

Lemma to_datetime_cell_range column v w :
  to_datetime_cell column v = Ok w -> is_instant w = true.
Proof.
  destruct v as [| s | x | ns]; simpl.
  - by intros [= <-].
  - apply to_datetime_rest_range.
  - destruct (days_to_ns x); [by intros [= <-] | apply to_datetime_rest_range].
  - destruct (forallb is_instant column); [by intros [= <-] | apply to_datetime_rest_range].
Qed.

Lemma to_datetime_cell_instant column v :
  forallb is_instant column = true -> is_instant v = true ->
  to_datetime_cell column v = Ok v.
Proof. intros Hcol. destruct v; simpl; try done. by rewrite Hcol. Qed.

Lemma normalize_channel_text s :
  normalize_channel (Str s) =
    if String.eqb (py_strip s) "" then NaN else Str (py_title (py_strip s)).
Proof.
  unfold normalize_channel; simpl.
  destruct (py_strip s) eqn:E; reflexivity.
Qed.

Lemma normalize_channel_idem v :
  normalize_channel (normalize_channel v) = normalize_channel v.
Proof.
  destruct v as [| s | |]; try reflexivity.
  rewrite normalize_channel_text.
  destruct (String.eqb_spec (py_strip s) "") as [E | E]; [reflexivity |].
  rewrite normalize_channel_text, strip_title_strip.
  destruct (String.eqb_spec (py_title (py_strip s)) "") as [E' | E'].
  - by apply title_empty in E'.
  - unfold py_title. by rewrite title_from_idem.
Qed.

(** A key in lower case that is none of the three words is not in
    [qty_map]. *)
Lemma qty_map_miss s :
  py_lower s ∉ ["one"; "two"; "three"] -> qty_map !! py_lower s = None.
Proof.
  intros Hs. unfold qty_map; simpl.
  repeat (apply not_elem_of_cons in Hs as [? Hs]).
  rewrite !lookup_insert_ne, lookup_empty; try done;
    intros E; symmetry in E; by apply lower_no_upper in E.
Qed.

Lemma whole_days_in_bounds d :
  in_bounds (d * NS_PER_DAY) = true <-> -106751 <= d <= 106751.
Proof.
  unfold in_bounds. change NS_PER_DAY with 86400000000000.
  change (2 ^ 63 - 1) with 9223372036854775807.
  rewrite andb_true_iff, !Z.leb_le. lia.
Qed.

Lemma days_to_ns_int d :
  days_to_ns (int d) =
    if in_bounds (d * NS_PER_DAY) then Some (d * NS_PER_DAY) else None.
Proof.
  unfold days_to_ns, int, is_whole; simpl.
  by rewrite Z.rem_1_r, Z.quot_1_r.
Qed.

Lemma to_datetime_range column column' :
  to_datetime column = Ok column' -> forallb is_instant column' = true.
Proof.
  intros Hrun. apply forallb_forall. intros v Hv.
  apply (series_apply_range (fun w => is_instant w = true)) in Hrun.
  - rewrite Forall_forall in Hrun. by apply Hrun, list_elem_of_In.
  - apply to_datetime_cell_range.
Qed.

(** A datetime column is returned as it is. *)
Lemma to_datetime_instants column :
  forallb is_instant column = true -> to_datetime column = Ok column.
Proof.
  intros Hcol. apply series_apply_id. apply Forall_forall. intros v Hv.
  apply to_datetime_cell_instant; [done |].
  rewrite forallb_forall in Hcol. by apply Hcol, list_elem_of_In.
Qed.

Lemma to_datetime_cell_days column d :
  -106751 <= d <= 106751 ->
  to_datetime_cell column (Num (int d)) = Ok (Timestamp (d * NS_PER_DAY)).
Proof.
  intros Hd. cbn [to_datetime_cell].
  by rewrite days_to_ns_int, (proj2 (whole_days_in_bounds d)).
Qed.

Lemma to_datetime_cell_day_count column v :
  is_day_count v -> exists w, to_datetime_cell column v = Ok w.
Proof.
  intros [-> | (d & -> & Hd)]; [by eexists |].
  rewrite to_datetime_cell_days by done. by eexists.
Qed.

(** On whole ages the buckets leave nothing out from 3 upwards. *)
Lemma get_age_group_whole (z : Z) :
  get_age_group (Num (int z)) =
    Ok (Str (if (3 <=? z) && (z <=? 18) then "Teenager"
             else if (19 <=? z) && (z <=? 64) then "Adult"
             else if 65 <=? z then "Senior" else "Other")).
Proof.
  unfold get_age_group, int, num_le, Qle_bool, inject_Z; simpl.
  rewrite !Z.mul_1_r.
  destruct (3 <=? z), (z <=? 18), (19 <=? z), (z <=? 64), (65 <=? z); reflexivity.
Qed.

Lemma other_whole_age_below_3 (z : Z) :
  get_age_group (Num (int z)) = Ok (Str "Other") -> z < 3.
Proof.
  rewrite get_age_group_whole.
  destruct (3 <=? z) eqn:E3; [| apply Z.leb_gt in E3; lia].
  apply Z.leb_le in E3.
  destruct (z <=? 18) eqn:E18; [discriminate |]. apply Z.leb_gt in E18.
  destruct (19 <=? z) eqn:E19; [| apply Z.leb_gt in E19; lia].
  destruct (z <=? 64) eqn:E64; [discriminate |]. apply Z.leb_gt in E64.
  destruct (65 <=? z) eqn:E65; [discriminate |]. apply Z.leb_gt in E65. lia.
Qed.

End CellFacts.

(* ===================================================================== *)
(** ** Reading and writing columns *)
(* ===================================================================== *)

Lemma frame_eq t u : nrows t = nrows u -> columns t = columns u -> t = u.
Proof. destruct t, u; simpl; congruence. Qed.

Lemma in_filter_label key (kc : string * list value) l :
  In kc (List.filter (fun kc => String.eqb (fst kc) key) l) <-> In kc l /\ fst kc = key.
Proof. rewrite List.filter_In, String.eqb_eq. tauto. Qed.

Lemma has_label_In key t :
  has_label key t = true <-> exists c, In (key, c) (columns t).
Proof.
  unfold has_label. rewrite existsb_exists. split.
  - intros [[k c] [Hin Hk]]. simpl in Hk. apply String.eqb_eq in Hk. subst k. eauto.
  - intros [c Hin]. exists (key, c). by rewrite String.eqb_refl.
Qed.

Lemma frame_get_has_label key t c : frame_get key t = Ok c -> has_label key t = true.
Proof.
  unfold frame_get, has_label. intros Hget. apply existsb_exists.
  destruct (List.filter _ _) as [|kc l] eqn:E; [done |].
  assert (Hin : In kc (kc :: l)) by (by left).
  rewrite <- E in Hin. apply in_filter_label in Hin as [Hin Hk].
  exists kc. split; [done |]. by apply String.eqb_eq.
Qed.

(** A column read with [frame_get] is the only one of its label. *)
Lemma frame_get_unique key t c kc :
  frame_get key t = Ok c -> In kc (columns t) -> fst kc = key -> kc = (key, c).
Proof.
  unfold frame_get. intros Hget Hin Hk.
  destruct (List.filter _ _) as [|kc0 [|? ?]] eqn:E; try done.
  injection Hget as <-.
  assert (Hin' : In kc (List.filter (fun kc => String.eqb (fst kc) key) (columns t))).
  { by apply in_filter_label. }
  rewrite E in Hin'. destruct Hin' as [-> | []].
  destruct kc as [k c]; simpl in *. by subst.
Qed.

Lemma frame_get_In key t c : frame_get key t = Ok c -> In (key, c) (columns t).
Proof.
  intros Hget. pose proof (frame_get_has_label _ _ _ Hget) as [c' Hin]%has_label_In.
  by rewrite <- (frame_get_unique _ _ _ _ Hget Hin eq_refl).
Qed.

Lemma frame_get_length key t c :
  well_formed t -> frame_get key t = Ok c -> length c = nrows t.
Proof.
  intros Hwf Hget%frame_get_In. unfold well_formed in Hwf.
  rewrite Forall_forall in Hwf. by apply (Hwf (key, c)), list_elem_of_In.
Qed.

Section FrameSet.
Variables (key : string) (series : list value).

Lemma fst_put kc : fst (put key series kc) = fst kc.
Proof. unfold put. by destruct (String.eqb_spec (fst kc) key). Qed.

Lemma put_other kc : fst kc <> key -> put key series kc = kc.
Proof. unfold put. by destruct (String.eqb_spec (fst kc) key). Qed.

Lemma put_same kc : fst kc = key -> put key series kc = (key, series).
Proof. unfold put. by destruct (String.eqb_spec (fst kc) key). Qed.

Lemma filter_put_other k l :
  k <> key ->
  List.filter (fun kc => String.eqb (fst kc) k) (map (put key series) l) =
  List.filter (fun kc => String.eqb (fst kc) k) l.
Proof.
  intros Hk. induction l as [|kc l IH]; simpl; [done |].
  rewrite fst_put, IH. destruct (String.eqb_spec (fst kc) k) as [E | E]; [| done].
  rewrite put_other; [done | congruence].
Qed.

Lemma filter_put_same l :
  List.filter (fun kc => String.eqb (fst kc) key) (map (put key series) l) =
  map (fun _ => (key, series)) (List.filter (fun kc => String.eqb (fst kc) key) l).
Proof.
  induction l as [|kc l IH]; simpl; [done |].
  rewrite fst_put, IH. destruct (String.eqb_spec (fst kc) key) as [E | E]; [| done].
  simpl. by rewrite put_same.
Qed.

Lemma map_put_id l :
  (forall kc, In kc l -> fst kc = key -> kc = (key, series)) ->
  map (put key series) l = l.
Proof.
  intros Hl. induction l as [|kc l IH]; simpl; [done |].
  rewrite IH by (intros; apply Hl; [by right | done]).
  f_equal. destruct (String.eqb_spec (fst kc) key) as [E | E].
  - rewrite put_same by done. symmetry. apply Hl; [by left | done].
  - by apply put_other.
Qed.

Lemma put_idem kc : put key series (put key series kc) = put key series kc.
Proof.
  destruct (String.eqb_spec (fst kc) key) as [E | E].
  - by rewrite (put_same kc), put_same.
  - by rewrite !(put_other kc).
Qed.

Lemma frame_set_columns t :
  columns (frame_set key series t) =
    if has_label key t then map (put key series) (columns t)
    else (columns t ++ [(key, series)])%list.
Proof. reflexivity. Qed.

Lemma frame_set_nrows t : nrows (frame_set key series t) = nrows t.
Proof. reflexivity. Qed.

Lemma frame_set_labels t :
  labels (frame_set key series t) =
    if has_label key t then labels t else (labels t ++ [key])%list.
Proof.
  unfold labels. rewrite frame_set_columns. destruct (has_label key t).
  - rewrite map_map. apply map_ext. intros kc. apply fst_put.
  - by rewrite map_app.
Qed.

Lemma frame_set_well_formed t :
  length series = nrows t -> well_formed t -> well_formed (frame_set key series t).
Proof.
  unfold well_formed. intros Hlen Hwf. rewrite frame_set_columns, frame_set_nrows.
  destruct (has_label key t).
  - apply Forall_map. eapply Forall_impl; [exact Hwf |].
    intros kc Hkc. unfold put. by destruct (String.eqb (fst kc) key).
  - apply Forall_app. split; [done | by constructor].
Qed.

Lemma frame_set_In t : In (key, series) (columns (frame_set key series t)).
Proof.
  rewrite frame_set_columns. destruct (has_label key t) eqn:E.
  - apply has_label_In in E as [c Hin].
    apply in_map_iff. exists (key, c). split; [by apply put_same | done].
  - apply in_or_app. right. by left.
Qed.

Lemma has_label_frame_set_same t : has_label key (frame_set key series t) = true.
Proof. apply has_label_In. exists series. apply frame_set_In. Qed.

Lemma has_label_frame_set_other k t :
  k <> key -> has_label k (frame_set key series t) = has_label k t.
Proof.
  intros Hk. unfold has_label at 1. rewrite frame_set_columns.
  unfold has_label at 2. destruct (has_label key t).
  - induction (columns t) as [|kc l IH]; simpl; [done |].
    by rewrite fst_put, IH.
  - rewrite existsb_app; simpl.
    destruct (String.eqb_spec key k); [congruence |]. by rewrite !orb_false_r.
Qed.

Lemma frame_get_set_ne k t :
  k <> key -> frame_get k (frame_set key series t) = frame_get k t.
Proof.
  intros Hk. unfold frame_get. rewrite frame_set_columns.
  destruct (has_label key t).
  - by rewrite filter_put_other.
  - rewrite List.filter_app; simpl.
    destruct (String.eqb_spec key k); [congruence |]. by rewrite app_nil_r.
Qed.

Lemma frame_get_set_eq t c :
  frame_get key t = Ok c -> frame_get key (frame_set key series t) = Ok series.
Proof.
  intros Hget. unfold frame_get in *. rewrite frame_set_columns.
  rewrite (frame_get_has_label _ _ _ Hget), filter_put_same.
  by destruct (List.filter _ (columns t)) as [|kc [|? ?]].
Qed.

Lemma frame_set_set t :
  frame_set key series (frame_set key series t) = frame_set key series t.
Proof.
  apply frame_eq; [done |].
  rewrite (frame_set_columns (frame_set _ _ _)), has_label_frame_set_same.
  rewrite frame_set_columns. destruct (has_label key t) eqn:E.
  - rewrite map_map. apply map_ext, put_idem.
  - rewrite map_app; simpl. rewrite (put_same (key, series)) by done.
    f_equal. apply map_put_id. intros [k c] Hin Hk; simpl in Hk; subst k.
    assert (has_label key t = true) by (apply has_label_In; eauto). congruence.
Qed.

End FrameSet.

(** Writing back the column that is there changes nothing. *)
Lemma frame_set_get_id key t c : frame_get key t = Ok c -> frame_set key c t = t.
Proof.
  intros Hget. apply frame_eq; [done |].
  rewrite frame_set_columns, (frame_get_has_label _ _ _ Hget).
  apply map_put_id. intros kc Hin Hk. by apply (frame_get_unique _ _ _ _ Hget).
Qed.

Lemma rename_absent old new t : has_label old t = false -> rename_columns old new t = t.
Proof.
  intros Hno. apply frame_eq; [done |]. simpl.
  rewrite <- (map_id (columns t)) at 2. apply map_ext_in.
  intros [k c] Hin; simpl. destruct (String.eqb_spec k old) as [-> | ?]; [| done].
  assert (has_label old t = true) by (apply has_label_In; eauto). congruence.
Qed.

Lemma has_label_rename_old old new t :
  old <> new -> has_label old (rename_columns old new t) = false.
Proof.
  intros Hne. apply not_true_is_false. intros [c Hin]%has_label_In. simpl in Hin.
  apply in_map_iff in Hin as [[k c'] [E _]]. simpl in E.
  destruct (String.eqb_spec k old); congruence.
Qed.

Lemma has_label_rename_other k old new t :
  k <> old -> k <> new -> has_label k (rename_columns old new t) = has_label k t.
Proof.
  intros Ho Hn. unfold has_label; simpl.
  induction (columns t) as [|[k' c] l IH]; simpl; [done |]. rewrite IH. f_equal.
  destruct (String.eqb_spec k' old) as [-> | ?]; [| done].
  destruct (String.eqb_spec new k), (String.eqb_spec old k); congruence.
Qed.

Lemma rename_well_formed old new t : well_formed t -> well_formed (rename_columns old new t).
Proof. unfold well_formed; simpl. intros Hwf. by apply Forall_map. Qed.

(* ===================================================================== *)
(** ** What [clean_data] does to the frame *)
(* ===================================================================== *)

Section CleanFacts.
Context `{Pandas}.

(** Every column [clean_data] reads is read as the renamed input has it:
    no assignment touches a column that is read later under another
    label. *)
Lemma clean_frame_unfold t :
  clean_frame t =
    (let t0 := rename_columns "Channel " "Channel" t in
     gender ← frame_get "Gender" t0;
     qty ← frame_get "Qty" t0;
     channel ← frame_get "Channel" t0;
     _ ← normalize_channel_column channel;
     age ← frame_get "Age" t0;
     date ← frame_get "Date" t0;
     date ← to_datetime date;
     amount ← frame_get "Amount" t0;
     age_group ← series_apply get_age_group (map to_numeric age);
     Ok (assemble t0 gender qty channel age date amount age_group)).
Proof.
  unfold clean_frame, assemble. cbv zeta.
  set (t0 := rename_columns "Channel " "Channel" t).
  destruct (frame_get "Gender" t0) as [gender | e] eqn:EG; [| done].
  cbn [mbind outcome_bind]. rewrite frame_get_set_ne by done.
  destruct (frame_get "Qty" t0) as [qty | e] eqn:EQ; [| done].
  cbn [mbind outcome_bind].
  erewrite frame_get_set_eq by (rewrite frame_get_set_ne by done; exact EQ).
  cbn [mbind outcome_bind]. rewrite !frame_get_set_ne by done.
  destruct (frame_get "Channel" t0) as [channel | e] eqn:EC; [| done].
  cbn [mbind outcome_bind].
  destruct (normalize_channel_column channel) as [channel' | e] eqn:EN; [| done].
  apply normalize_channel_column_inv in EN as [_ ->].
  cbn [mbind outcome_bind]. rewrite !frame_get_set_ne by done.
  destruct (frame_get "Age" t0) as [age | e] eqn:EA; [| done].
  cbn [mbind outcome_bind]. rewrite !frame_get_set_ne by done.
  destruct (frame_get "Date" t0) as [date | e] eqn:ED; [| done].
  cbn [mbind outcome_bind].
  destruct (to_datetime date) as [date' | e]; [| done].
  cbn [mbind outcome_bind]. rewrite !frame_get_set_ne by done.
  destruct (frame_get "Amount" t0) as [amount | e] eqn:EM; [| done].
  cbn [mbind outcome_bind]. rewrite !frame_get_set_ne by done.
  erewrite frame_get_set_eq by (rewrite !frame_get_set_ne by done; exact EA).
  reflexivity.
Qed.

End CleanFacts.

(* ===================================================================== *)
(** ** Running [clean_data] *)
(* ===================================================================== *)

Lemma bind_run {A B} (m : M A) (f : A -> M B) st :
  (m ≫= f) st =
    match m st with
    | (Ok a, st') => f a st'
    | (Raise e, st') => (Raise e, st')
    end.
Proof. reflexivity. Qed.

Lemma update_run l f st t :
  heap st !! l = Some t ->
  update l f st = (Ok tt, {| heap := <[l := f t]> (heap st); stdout := stdout st |}).
Proof. unfold update. by intros ->. Qed.

Lemma update_at l f (h : gmap loc DataFrame) t out :
  update l f {| heap := <[l := t]> h; stdout := out |} =
    (Ok tt, {| heap := <[l := f t]> h; stdout := out |}).
Proof. unfold update; simpl. by rewrite lookup_insert_eq, insert_insert_eq. Qed.

Lemma getitem_at l key (h : gmap loc DataFrame) t out :
  getitem l key {| heap := <[l := t]> h; stdout := out |} =
    (frame_get key t, {| heap := <[l := t]> h; stdout := out |}).
Proof. unfold getitem; simpl. by rewrite lookup_insert_eq. Qed.

Lemma lift_run {A} (o : outcome A) st : lift o st = (o, st).
Proof. reflexivity. Qed.

(** One statement of [clean_data]: a column is read, a library call is
    made, a column is written. *)
Ltac run_statement :=
  first
    [ rewrite bind_run, getitem_at;
      match goal with
      | |- context [frame_get ?k ?u] =>
          destruct (frame_get k u) as [? | ?]; cbn [mbind outcome_bind fst]; [| reflexivity]
      end
    | rewrite bind_run, lift_run;
      match goal with
      | |- context [normalize_channel_column ?c] =>
          destruct (normalize_channel_column c) as [? | ?];
          cbn [mbind outcome_bind fst]; [| reflexivity]
      | |- context [to_datetime ?c] =>
          destruct (to_datetime c) as [? | ?];
          cbn [mbind outcome_bind fst]; [| reflexivity]
      end
    | rewrite bind_run, update_at ].

Lemma info_at l (h : gmap loc DataFrame) t out :
  info l {| heap := <[l := t]> h; stdout := out |} =
    (Ok tt, {| heap := <[l := t]> h; stdout := out ++ [InfoReport t] |}).
Proof. unfold info; simpl. by rewrite lookup_insert_eq. Qed.

Section Run.
Context `{Pandas}.

(** [clean_data] on a reference leaves [clean_frame] of the frame behind
    that reference and reports on it, or raises what [clean_frame]
    raises. *)
Lemma clean_data_run l st t :
  heap st !! l = Some t ->
  match clean_frame t with
  | Ok t' =>
      clean_data (PyRef l) st =
        (Ok (PyRef l),
         {| heap := <[l := t']> (heap st); stdout := stdout st ++ report t' |})
  | Raise e => fst (clean_data (PyRef l) st) = Raise e
  end.
Proof.
  intros Hl. unfold clean_frame, clean_data, rename_inplace, setitem. cbv zeta.
  rewrite bind_run, (update_run _ _ _ _ Hl).
  set (t0 := rename_columns "Channel " "Channel" t).
  repeat run_statement.
  rewrite bind_run, lift_run.
  destruct (series_apply get_age_group _) as [age_group | e];
    cbn [mbind outcome_bind fst]; [| reflexivity].
  rewrite bind_run, update_at, bind_run. unfold print. cbn [heap stdout].
  rewrite bind_run, info_at. unfold report. by rewrite <- app_assoc.
Qed.

End Run.

Section FrameFacts.
Context `{Pandas}.

Lemma clean_frame_inv t t' :
  clean_frame t = Ok t' ->
  let t0 := rename_columns "Channel " "Channel" t in
  exists gender qty channel age date amount age_group,
    frame_get "Gender" t0 = Ok gender /\
    frame_get "Qty" t0 = Ok qty /\
    (frame_get "Channel" t0 = Ok channel /\ str_accessor channel = true) /\
    frame_get "Age" t0 = Ok age /\
    (exists raw, frame_get "Date" t0 = Ok raw /\ to_datetime raw = Ok date) /\
    frame_get "Amount" t0 = Ok amount /\
    series_apply get_age_group (map to_numeric age) = Ok age_group /\
    t' = assemble t0 gender qty channel age date amount age_group.
Proof.
  rewrite clean_frame_unfold. cbv zeta.
  set (t0 := rename_columns "Channel " "Channel" t).
  destruct (frame_get "Gender" t0) as [gender | ?]; [| done].
  destruct (frame_get "Qty" t0) as [qty | ?]; [| done].
  destruct (frame_get "Channel" t0) as [channel | ?]; [| done].
  cbn [mbind outcome_bind].
  destruct (normalize_channel_column channel) as [? | ?] eqn:EN; [| done].
  apply normalize_channel_column_inv in EN as [EN _].
  destruct (frame_get "Age" t0) as [age | ?]; [| done].
  destruct (frame_get "Date" t0) as [raw | ?]; [| done].
  cbn [mbind outcome_bind].
  destruct (to_datetime raw) as [date | ?] eqn:ED; [| done].
  destruct (frame_get "Amount" t0) as [amount | ?]; [| done].
  cbn [mbind outcome_bind].
  destruct (series_apply get_age_group _) as [age_group | ?] eqn:E; [| done].
  cbn [mbind outcome_bind]. intros [= <-].
  exists gender, qty, channel, age, date, amount, age_group.
  repeat split; try done. by exists raw.
Qed.

Lemma clean_frame_nrows t t' : clean_frame t = Ok t' -> nrows t' = nrows t.
Proof.
  intros (? & ? & ? & ? & ? & ? & ? & _ & _ & _ & _ & _ & _ & _ & ->)%clean_frame_inv.
  reflexivity.
Qed.

Lemma clean_frame_labels t t' :
  clean_frame t = Ok t' ->
  labels t' =
    if has_label "Age Group" t
    then labels (rename_columns "Channel " "Channel" t)
    else (labels (rename_columns "Channel " "Channel" t) ++ ["Age Group"])%list.
Proof.
  intros (gender & qty & channel & age & date & amount & age_group &
          EG & EQ & [EC _] & EA & (raw & ED & _) & EM & _ & ->)%clean_frame_inv.
  apply frame_get_has_label in EG, EQ, EC, EA, ED, EM.
  unfold assemble.
  rewrite !frame_set_labels.
  rewrite ?has_label_frame_set_same, ?has_label_frame_set_other by done.
  rewrite EG, EQ, EC, EA, ED, EM.
  rewrite ?has_label_frame_set_same, ?has_label_frame_set_other by done.
  by rewrite has_label_rename_other.
Qed.

Lemma clean_frame_well_formed t t' :
  clean_frame t = Ok t' -> well_formed t -> well_formed t'.
Proof.
  intros (gender & qty & channel & age & date & amount & age_group &
          EG & EQ & [EC _] & EA & (raw & ED & Hdate) & EM & EAG & ->)%clean_frame_inv Hwf.
  apply (rename_well_formed "Channel " "Channel") in Hwf.
  apply series_apply_length in EAG. rewrite List.length_map in EAG.
  apply series_apply_length in Hdate.
  apply (frame_get_length _ _ _ Hwf) in EG, EQ, EC, EA, ED, EM.
  unfold assemble.
  repeat (apply frame_set_well_formed;
          [rewrite ?frame_set_nrows, ?List.length_map; congruence |]).
  exact Hwf.
Qed.

Lemma map_absorb {A} (f g : A -> A) l :
  (forall x, g (f x) = f x) -> map g (map f l) = map f l.
Proof. intros Hf. rewrite map_map. by apply map_ext. Qed.

Lemma map_idem {A} (f : A -> A) l : (forall x, f (f x) = f x) -> map f (map f l) = map f l.
Proof. apply map_absorb. Qed.

Ltac read_assembled E :=
  unfold assemble; rewrite !frame_get_set_ne by done;
  erewrite frame_get_set_eq; [reflexivity |];
  rewrite ?frame_get_set_ne by done; try exact E.

(** The columns of the frame [assemble] builds: each is the raw column
    with the step of its label applied to every cell, and Date is the
    converted column. *)
Lemma assemble_columns t0 gender qty channel age raw date amount age_group :
  frame_get "Gender" t0 = Ok gender ->
  frame_get "Qty" t0 = Ok qty ->
  frame_get "Channel" t0 = Ok channel ->
  frame_get "Age" t0 = Ok age ->
  frame_get "Date" t0 = Ok raw ->
  frame_get "Amount" t0 = Ok amount ->
  let t' := assemble t0 gender qty channel age date amount age_group in
  frame_get "Gender" t' = Ok (map clean_gender gender) /\
  frame_get "Qty" t' = Ok (map normalize_quantity qty) /\
  frame_get "Channel" t' = Ok (map normalize_channel channel) /\
  frame_get "Age" t' = Ok (map to_numeric age) /\
  frame_get "Date" t' = Ok date /\
  frame_get "Amount" t' = Ok (map to_numeric amount) /\
  In ("Age Group", age_group) (columns t').
Proof.
  intros EG EQ EC EA ED EM t'. subst t'. repeat split.
  - read_assembled EG.
  - unfold normalize_quantity. rewrite <- (map_map qty_lambda to_numeric).
    unfold assemble. rewrite !frame_get_set_ne by done.
    erewrite frame_get_set_eq; [reflexivity |].
    erewrite frame_get_set_eq; [reflexivity |].
    rewrite frame_get_set_ne by done. exact EQ.
  - read_assembled EC.
  - read_assembled EA.
  - read_assembled ED.
  - read_assembled EM.
  - unfold assemble. apply frame_set_In.
Qed.

(** The steps are what [clean_data] does to the table: every processed
    column of the result is the column of the renamed input, mapped by its
    step or converted by [pd.to_datetime], and Age Group is [get_age_group]
    of the cleaned ages. *)
Lemma clean_frame_columns t t' :
  clean_frame t = Ok t' ->
  let t0 := rename_columns "Channel " "Channel" t in
  exists gender qty channel age date amount age_group,
    (frame_get "Gender" t0 = Ok gender /\
     frame_get "Gender" t' = Ok (map clean_gender gender)) /\
    (frame_get "Qty" t0 = Ok qty /\
     frame_get "Qty" t' = Ok (map normalize_quantity qty)) /\
    (frame_get "Channel" t0 = Ok channel /\
     frame_get "Channel" t' = Ok (map normalize_channel channel)) /\
    (frame_get "Age" t0 = Ok age /\
     frame_get "Age" t' = Ok (map to_numeric age)) /\
    ((exists raw, frame_get "Date" t0 = Ok raw /\ normalize_date raw = Ok date) /\
     frame_get "Date" t' = Ok date) /\
    (frame_get "Amount" t0 = Ok amount /\
     frame_get "Amount" t' = Ok (map to_numeric amount)) /\
    (series_apply get_age_group (map to_numeric age) = Ok age_group /\
     In ("Age Group", age_group) (columns t')).
Proof.
  intros (gender & qty & channel & age & date & amount & age_group &
          EG & EQ & [EC _] & EA & (raw & ED & Hdate) & EM & EAG & ->)%clean_frame_inv.
  destruct (assemble_columns _ _ _ _ _ _ date _ age_group EG EQ EC EA ED EM)
    as (G & Q & C & A & D & M' & AG).
  exists gender, qty, channel, age, date, amount, age_group.
  repeat split; try done. by exists raw.
Qed.

(** A cleaned frame on whose Channel column [.str] is given is a fixed
    point of [clean_frame]. *)
Lemma clean_frame_again t t' :
  clean_frame t = Ok t' ->
  (forall channel, frame_get "Channel" t' = Ok channel -> str_accessor channel = true) ->
  clean_frame t' = Ok t'.
Proof.
  intros (gender & qty & channel & age & date & amount & age_group &
          EG & EQ & [EC _] & EA & (raw & ED & Hdate) & EM & EAG & Ht')%clean_frame_inv Hstr.
  set (t0 := rename_columns "Channel " "Channel" t) in *.
  assert (Hren : rename_columns "Channel " "Channel" t' = t').
  { apply rename_absent. subst t'. unfold assemble.
    rewrite !has_label_frame_set_other by done.
    by apply has_label_rename_old. }
  destruct (assemble_columns t0 _ _ _ _ _ date _ age_group EG EQ EC EA ED EM)
    as (G & Q & C & A & D & M' & _).
  rewrite <- Ht' in G, Q, C, A, D, M'.
  unfold normalize_quantity in Q.
  rewrite <- (map_map qty_lambda to_numeric) in Q.
  rewrite clean_frame_unfold. cbv zeta. rewrite Hren, G, Q, C.
  cbn [mbind outcome_bind].
  unfold normalize_channel_column. rewrite (Hstr _ C).
  cbn [mbind outcome_bind]. rewrite A, D.
  cbn [mbind outcome_bind].
  rewrite (to_datetime_instants date) by exact (to_datetime_range _ _ Hdate).
  cbn [mbind outcome_bind]. rewrite M'.
  cbn [mbind outcome_bind].
  rewrite !(map_idem to_numeric) by apply to_numeric_idem.
  rewrite EAG. cbn [mbind outcome_bind]. f_equal. unfold assemble.
  rewrite (map_idem clean_gender) by apply clean_gender_idem.
  rewrite (map_absorb to_numeric qty_lambda) by apply qty_lambda_to_numeric.
  rewrite !(map_idem to_numeric) by apply to_numeric_idem.
  rewrite (map_idem normalize_channel) by apply normalize_channel_idem.
  rewrite (frame_set_get_id _ _ _ G), !(frame_set_get_id _ _ _ Q),
    (frame_set_get_id _ _ _ C), (frame_set_get_id _ _ _ A),
    (frame_set_get_id _ _ _ D), (frame_set_get_id _ _ _ M').
  rewrite Ht'. unfold assemble. apply frame_set_set.
Qed.

(** Cleaning a cleaned frame gives it back, when it does not raise. *)
Lemma clean_frame_idem t t' t'' :
  clean_frame t = Ok t' -> clean_frame t' = Ok t'' -> t'' = t'.
Proof.
  intros Hfirst Hsecond.
  assert (Hagain : clean_frame t' = Ok t'); [| congruence].
  apply (clean_frame_again t); [done |].
  intros channel Hc.
  apply clean_frame_inv in Hsecond
    as (? & ? & channel' & ? & ? & ? & ? & _ & _ & [EC HC] & _).
  assert (Hren : rename_columns "Channel " "Channel" t' = t').
  { apply rename_absent. apply clean_frame_inv in Hfirst
      as (? & ? & ? & ? & ? & ? & ? & _ & _ & _ & _ & _ & _ & _ & ->).
    unfold assemble. rewrite !has_label_frame_set_other by done.
    by apply has_label_rename_old. }
  rewrite Hren in EC. congruence.
Qed.

End FrameFacts.

(* ===================================================================== *)
(** ** The age buckets *)
(* ===================================================================== *)

Lemma Qle_bool_false p q : Qle_bool p q = false <-> (q < p)%Q.
Proof.
  rewrite <- not_true_iff_false, Qle_bool_iff. split; [apply Qnot_le_lt | apply Qlt_not_le].
Qed.

Ltac split_age_tests :=
  unfold get_age_group, num_le, int; cbn [isna];
  repeat match goal with
         | |- context [Qle_bool ?p ?q] =>
             let E := fresh "E" in
             destruct (Qle_bool p q) eqn:E;
             [apply Qle_bool_iff in E | apply Qle_bool_false in E];
             cbn [andb] in *
         end;
  try reflexivity; exfalso; unfold inject_Z in *; lra.

(** C1. [get_age_group] returns the missing marker for a missing age,
    "Teenager" for an age from 3 to 18, "Adult" for an age from 19 to 64,
    "Senior" for an age of 65 or more, and "Other" for every other number;
    the ages 10, 30, 70 and 1 fall in Teenager, Adult, Senior and Other. *)
Theorem get_age_group_buckets :
  get_age_group NaN = Ok NaN /\
  (forall q, (3 <= q)%Q -> (q <= 18)%Q ->
     get_age_group (Num (Fin q)) = Ok (Str "Teenager")) /\
  (forall q, (19 <= q)%Q -> (q <= 64)%Q ->
     get_age_group (Num (Fin q)) = Ok (Str "Adult")) /\
  (forall q, (65 <= q)%Q -> get_age_group (Num (Fin q)) = Ok (Str "Senior")) /\
  get_age_group (Num PosInf) = Ok (Str "Senior") /\
  (forall q, ~ (3 <= q /\ q <= 18)%Q -> ~ (19 <= q /\ q <= 64)%Q -> ~ (65 <= q)%Q ->
     get_age_group (Num (Fin q)) = Ok (Str "Other")) /\
  get_age_group (Num NegInf) = Ok (Str "Other") /\
  get_age_group (Num (int 10)) = Ok (Str "Teenager") /\
  get_age_group (Num (int 30)) = Ok (Str "Adult") /\
  get_age_group (Num (int 70)) = Ok (Str "Senior") /\
  get_age_group (Num (int 1)) = Ok (Str "Other").
Proof.
  repeat split; try reflexivity.
  - intros q H3 H18. split_age_tests.
  - intros q H19 H64. split_age_tests.
  - intros q H65. split_age_tests.
  - intros q Ht Ha Hs. split_age_tests.
Qed.

Lemma get_age_group_buckets_witness :
  get_age_group (Num (Fin (25 # 2))) = Ok (Str "Teenager").
Proof.
  apply (proj1 (proj2 get_age_group_buckets) (25 # 2)); vm_compute; discriminate.
Defined.

(** Which finite ages land in "Other": those below 3, and those that fall
    between two buckets. *)
Lemma other_age_characterised q :
  get_age_group (Num (Fin q)) = Ok (Str "Other") <->
  (q < 3 \/ (18 < q /\ q < 19) \/ (64 < q /\ q < 65))%Q.
Proof.
  unfold get_age_group, num_le, int; cbn [isna].
  repeat match goal with
         | |- context [Qle_bool ?a ?b] =>
             let E := fresh "E" in
             destruct (Qle_bool a b) eqn:E;
             [apply Qle_bool_iff in E | apply Qle_bool_false in E];
             cbn [andb] in *
         end;
  unfold inject_Z in *; (split; [intros Heq; try discriminate Heq | intros Hq]);
  try reflexivity; try lra; exfalso; lra.
Qed.

(** C6. The age 18.5, which [pd.to_numeric] reads in the text "18.5", is
    not below 3 and yet lands in "Other": the integer bounds of the
    buckets leave the ages strictly between 18 and 19 (and between 64 and
    65) out. *)
Theorem age_18_5_is_other :
  @to_numeric decimal_pandas (Str "18.5") = Num (Fin (185 # 10)) /\
  get_age_group (Num (Fin (185 # 10))) = Ok (Str "Other") /\
  (3 <= 185 # 10)%Q.
Proof. repeat split. vm_compute. discriminate. Qed.

(* ===================================================================== *)
(** ** Gender, quantity, channel and date cells *)
(* ===================================================================== *)

Lemma female_token_clean t :
  t ∈ ["women"; "w"; "female"] ->
  starts_clean t /\ py_rstrip t = t /\ t <> "" /\ t ∉ ["men"; "m"; "male"].
Proof.
  intros Ht. repeat (apply elem_of_cons in Ht as [-> | Ht]);
    [| | | by apply elem_of_nil in Ht];
    (repeat split; try done; intros Hm;
     repeat (apply elem_of_cons in Hm as [Hm | Hm]; [discriminate |]);
     by apply elem_of_nil in Hm).
Qed.

Lemma male_token_clean t :
  t ∈ ["men"; "m"; "male"] ->
  starts_clean t /\ py_rstrip t = t /\ t <> "" /\ t ∉ ["women"; "w"; "female"].
Proof.
  intros Ht. repeat (apply elem_of_cons in Ht as [-> | Ht]);
    [| | | by apply elem_of_nil in Ht];
    (repeat split; try done; intros Hm;
     repeat (apply elem_of_cons in Hm as [Hm | Hm]; [discriminate |]);
     by apply elem_of_nil in Hm).
Qed.

(** The token [clean_gender] looks up for a text wrapped in whitespace. *)
Lemma padded_token a s b :
  all_space a = true -> all_space b = true ->
  starts_clean (py_lower s) -> py_rstrip (py_lower s) = py_lower s -> py_lower s <> "" ->
  py_lower (py_strip (a +:+ s +:+ b)) = py_lower s.
Proof.
  intros Ha Hb Hl Hr Hne.
  rewrite <- strip_lower, !lower_app.
  apply strip_padded; by rewrite ?all_space_lower.
Qed.

(** C2. [clean_gender] returns "Female" when the trimmed, lower-cased
    value is one of women, w, female, "Male" when it is one of men, m,
    male, and the missing marker for every other value, a missing one
    included; a recognised word in any casing, with any whitespace around
    it, is recognised. *)
Theorem clean_gender_tokens `{Pandas} :
  (forall v, isna v = true -> clean_gender v = NaN) /\
  (forall v, isna v = false ->
     py_lower (py_strip (py_str v)) ∈ ["women"; "w"; "female"] ->
     clean_gender v = Str "Female") /\
  (forall v, isna v = false ->
     py_lower (py_strip (py_str v)) ∈ ["men"; "m"; "male"] ->
     clean_gender v = Str "Male") /\
  (forall v, py_lower (py_strip (py_str v)) ∉ ["women"; "w"; "female"] ->
     py_lower (py_strip (py_str v)) ∉ ["men"; "m"; "male"] ->
     clean_gender v = NaN) /\
  (forall a s b, all_space a = true -> all_space b = true ->
     py_lower s ∈ ["women"; "w"; "female"] ->
     clean_gender (Str (a +:+ s +:+ b)) = Str "Female") /\
  (forall a s b, all_space a = true -> all_space b = true ->
     py_lower s ∈ ["men"; "m"; "male"] ->
     clean_gender (Str (a +:+ s +:+ b)) = Str "Male").
Proof.
  assert (Hf : forall v, isna v = false ->
            py_lower (py_strip (py_str v)) ∈ ["women"; "w"; "female"] ->
            clean_gender v = Str "Female").
  { intros v Hv Ht. unfold clean_gender. rewrite Hv. by rewrite bool_decide_eq_true_2. }
  assert (Hm : forall v, isna v = false ->
            py_lower (py_strip (py_str v)) ∈ ["men"; "m"; "male"] ->
            clean_gender v = Str "Male").
  { intros v Hv Ht. unfold clean_gender. rewrite Hv.
    destruct (male_token_clean _ Ht) as (_ & _ & _ & Hnf).
    by rewrite (bool_decide_eq_false_2 _ Hnf), bool_decide_eq_true_2. }
  repeat split; [| exact Hf | exact Hm | | |].
  - intros v Hv. unfold clean_gender. by rewrite Hv.
  - intros v Hnf Hnm. unfold clean_gender. destruct (isna v); [done |].
    by rewrite (bool_decide_eq_false_2 _ Hnf), (bool_decide_eq_false_2 _ Hnm).
  - intros a s b Ha Hb Ht. apply Hf; [done |]. simpl.
    destruct (female_token_clean _ Ht) as (Hl & Hr & Hne & _).
    by rewrite padded_token.
  - intros a s b Ha Hb Ht. apply Hm; [done |]. simpl.
    destruct (male_token_clean _ Ht) as (Hl & Hr & Hne & _).
    by rewrite padded_token.
Qed.

Lemma clean_gender_tokens_witness :
  @clean_gender decimal_pandas (Str ("  " +:+ "WoMen" +:+ String "009" " ")) = Str "Female".
Proof.
  apply (proj1 (proj2 (proj2 (proj2 (proj2 (@clean_gender_tokens decimal_pandas))))));
    [reflexivity | reflexivity | vm_compute; apply list_elem_of_here].
Defined.

(** C3. A quantity that is the text one, two or three in any casing
    becomes 1, 2 or 3; any other value goes to the numeric parse, which
    keeps a number, returns the number read in a text, and returns the
    missing marker for a text that is not a number.  So "Two", "two" and 2
    give 2, and "banana" gives the missing marker as soon as the parser
    does not read it as a number. *)
Theorem normalize_quantity_words_then_parse `{Pandas} :
  (forall s, py_lower s = "one" -> normalize_quantity (Str s) = Num (int 1)) /\
  (forall s, py_lower s = "two" -> normalize_quantity (Str s) = Num (int 2)) /\
  (forall s, py_lower s = "three" -> normalize_quantity (Str s) = Num (int 3)) /\
  (forall s, py_lower s ∉ ["one"; "two"; "three"] ->
     normalize_quantity (Str s) =
       match parse_number s with Some x => Num x | None => NaN end) /\
  (forall x, normalize_quantity (Num x) = Num x) /\
  normalize_quantity NaN = NaN /\
  normalize_quantity (Str "Two") = Num (int 2) /\
  normalize_quantity (Str "two") = Num (int 2) /\
  normalize_quantity (Num (int 2)) = Num (int 2) /\
  (parse_number "banana" = None -> normalize_quantity (Str "banana") = NaN).
Proof.
  assert (Hother : forall s, py_lower s ∉ ["one"; "two"; "three"] ->
            normalize_quantity (Str s) =
              match parse_number s with Some x => Num x | None => NaN end).
  { intros s Hs. unfold normalize_quantity, qty_lambda, dict_get; simpl.
    by rewrite (qty_map_miss s Hs). }
  repeat split; try reflexivity; try exact Hother.
  - intros s Hs. unfold normalize_quantity, qty_lambda, dict_get; simpl. by rewrite Hs.
  - intros s Hs. unfold normalize_quantity, qty_lambda, dict_get; simpl. by rewrite Hs.
  - intros s Hs. unfold normalize_quantity, qty_lambda, dict_get; simpl. by rewrite Hs.
  - intros Hb. rewrite Hother, Hb; [done |].
    intros Hin. repeat (apply elem_of_cons in Hin as [Hin | Hin]; [discriminate |]).
    by apply elem_of_nil in Hin.
Qed.

Lemma normalize_quantity_words_then_parse_witness :
  @normalize_quantity decimal_pandas (Str "tHrEe") = Num (int 3) /\
  @normalize_quantity decimal_pandas (Str "banana") = NaN.
Proof.
  split.
  - apply (proj1 (proj2 (proj2 (@normalize_quantity_words_then_parse decimal_pandas)))).
    reflexivity.
  - apply (@normalize_quantity_words_then_parse decimal_pandas). reflexivity.
Defined.

(** C10, as the specification words it, fails: on a Channel column of
    numbers the step does not give missing markers, it raises
    [AttributeError], and [clean_data] with it. *)
Lemma channel_of_numbers_is_refused :
  @normalize_channel_column decimal_pandas [Num (int 7); Num (int 8)] =
    Raise AttributeError /\
  fst (@clean_data decimal_pandas (PyRef 1%positive) (initial_state numbered_channel_table)) =
    Raise AttributeError /\
  ~ (forall column, exists column',
       @normalize_channel_column decimal_pandas column = Ok column' /\
       forall i v, column !! i = Some v -> is_str v = false -> column' !! i = Some NaN).
Proof.
  repeat split.
  intros Hclaim. destruct (Hclaim [Num (int 7); Num (int 8)]) as (column' & Hrun & _).
  vm_compute in Hrun. discriminate.
Qed.

(** C10, amended.  On a Channel column that holds a text the step does not
    raise, and wherever it does not raise it turns every cell that is not
    a text (a number, a missing value, a timestamp) into the missing
    marker; a text is trimmed and title-cased, and becomes the missing
    marker when nothing is left after trimming. *)
Theorem normalize_channel_text_only `{Pandas} :
  (forall column s, In (Str s) column ->
     normalize_channel_column column = Ok (map normalize_channel column)) /\
  (forall column column', normalize_channel_column column = Ok column' ->
     column' = map normalize_channel column) /\
  (forall v, is_str v = false -> normalize_channel v = NaN) /\
  (forall s, py_strip s = "" -> normalize_channel (Str s) = NaN) /\
  (forall s, py_strip s <> "" ->
     normalize_channel (Str s) = Str (py_title (py_strip s))) /\
  normalize_channel_column [Num (int 7); Str "  amazon "; Str ""] =
    Ok [NaN; Str "Amazon"; NaN].
Proof.
  repeat split; try reflexivity.
  - intros column s Hs. unfold normalize_channel_column.
    by rewrite (str_accessor_text _ _ Hs).
  - intros column column' Hrun. by apply normalize_channel_column_inv in Hrun as [_ ->].
  - by intros [| s | x | ns].
  - intros s Hs. by rewrite normalize_channel_text, Hs.
  - intros s Hs. rewrite normalize_channel_text.
    by destruct (String.eqb_spec (py_strip s) "").
Qed.

Lemma normalize_channel_text_only_witness :
  @normalize_channel_column decimal_pandas [Str " big  bazaar"; Timestamp 0; Num (int 7)] =
    Ok (map normalize_channel [Str " big  bazaar"; Timestamp 0; Num (int 7)]).
Proof.
  apply (proj1 (@normalize_channel_text_only decimal_pandas) _ " big  bazaar").
  simpl. tauto.
Defined.


Lemma is_instant_date v : is_instant v = true -> is_date v.
Proof. destruct v; try done; [by left | right; by eexists]. Qed.

Lemma to_datetime_dates `{Pandas} column column' :
  to_datetime column = Ok column' -> Forall is_date column'.
Proof.
  intros Hrun%to_datetime_range. apply Forall_forall. intros v Hv.
  apply is_instant_date. rewrite forallb_forall in Hrun. by apply Hrun, list_elem_of_In.
Qed.




(* ===================================================================== *)
(** ** The whole table *)
(* ===================================================================== *)

(** The row W, One, " myntra ", 45, 250.5 comes out as Female, 1, Myntra,
    45, 250.5, with Adult as its age group. *)
Example end_to_end_row :
  @clean_frame decimal_pandas
    {| nrows := 1;
       columns :=
         [("Gender", [Str "W"]); ("Qty", [Str "One"]); ("Channel ", [Str " myntra "]);
          ("Age", [Str "45"]); ("Date", [NaN]); ("Amount", [Str "250.5"])] |} =
  Ok {| nrows := 1;
        columns :=
          [("Gender", [Str "Female"]); ("Qty", [Num (int 1)]); ("Channel", [Str "Myntra"]);
           ("Age", [Num (Fin (45 # 1))]); ("Date", [NaN]);
           ("Amount", [Num (Fin (2505 # 10))]); ("Age Group", [Str "Adult"])] |}.
Proof. reflexivity. Qed.

(** C9. Called with [None], [clean_data] prints its diagnostic, returns
    [None] without raising, and leaves every table as it is. *)
Theorem clean_data_none `{Pandas} (st : state) :
  clean_data PyNone st =
    (Ok PyNone,
     {| heap := heap st; stdout := stdout st ++ [Line "Error: No data to clean."] |}).
Proof. reflexivity. Qed.

(** What a successful call leaves behind. *)
Lemma clean_data_ok `{Pandas} l st t r st' :
  heap st !! l = Some t ->
  clean_data (PyRef l) st = (Ok r, st') ->
  exists t',
    clean_frame t = Ok t' /\ r = PyRef l /\
    st' = {| heap := <[l := t']> (heap st); stdout := stdout st ++ report t' |}.
Proof.
  intros Hl Hrun. pose proof (clean_data_run l st t Hl) as Hspec.
  destruct (clean_frame t) as [t' | e].
  - rewrite Hspec in Hrun. injection Hrun as <- <-. by exists t'.
  - rewrite Hrun in Hspec. discriminate.
Qed.

(** C4, as the specification words it, fails: a table that has a column
    Age Group already comes back with the columns it had, not with one
    more. *)
Lemma age_group_column_not_appended :
  ~ (forall t r st',
       @clean_data decimal_pandas (PyRef 1%positive) (initial_state t) = (Ok r, st') ->
       exists t', heap st' !! 1%positive = Some t' /\
         nrows t' = nrows t /\
         labels t' =
           (labels (rename_columns "Channel " "Channel" t) ++ ["Age Group"])%list).
Proof.
  intros Hclaim.
  destruct (Hclaim grouped_table (PyRef 1%positive)
              (snd (@clean_data decimal_pandas (PyRef 1%positive) (initial_state grouped_table))))
    as (t' & Ht' & _ & Hlabels).
  - vm_compute. reflexivity.
  - vm_compute in Ht'. injection Ht' as <-. vm_compute in Hlabels. discriminate.
Qed.

(** C4, amended.  The table [clean_data] produces has the rows of the
    input table, every column with one cell per row, and the columns of
    the input under their labels after the header "Channel " is renamed to
    "Channel"; the derived column Age Group is appended as the last column
    when the input has no column of that label, and overwrites the column
    of that label where it stands otherwise. *)
Theorem clean_data_rows_and_columns `{Pandas} l st t r st' :
  heap st !! l = Some t ->
  clean_data (PyRef l) st = (Ok r, st') ->
  exists t',
    heap st' !! l = Some t' /\
    nrows t' = nrows t /\
    (well_formed t -> well_formed t') /\
    labels t' =
      if has_label "Age Group" t
      then labels (rename_columns "Channel " "Channel" t)
      else (labels (rename_columns "Channel " "Channel" t) ++ ["Age Group"])%list.
Proof.
  intros Hl Hrun. destruct (clean_data_ok _ _ _ _ _ Hl Hrun) as (t' & Ht' & _ & ->).
  exists t'. simpl. rewrite lookup_insert_eq. split; [done |].
  split; [by apply clean_frame_nrows |].
  split; [by apply clean_frame_well_formed | by apply clean_frame_labels].
Qed.

Lemma clean_data_rows_and_columns_witness :
  exists t',
    heap (snd (@clean_data decimal_pandas (PyRef 1%positive) (initial_state raw_table))) !! 1%positive
      = Some t' /\
    nrows t' = 3%nat /\
    (well_formed raw_table -> well_formed t') /\
    labels t' =
      ["Channel"; "Gender"; "Qty"; "Age"; "Date"; "Amount"; "Status"; "Age Group"].
Proof.
  apply (@clean_data_rows_and_columns decimal_pandas 1%positive
           (initial_state raw_table) raw_table (PyRef 1%positive)).
  - reflexivity.
  - vm_compute. reflexivity.
Defined.

(** C5, as the specification words it, fails: the only Channel cell of
    this table is blank, so that the cleaned Channel column holds missing
    values only; the first call succeeds, and the second one raises, as
    the [.str] accessor is refused on such a column. *)
Lemma cleaned_blank_channel_is_refused :
  ~ (forall t r st1,
       @clean_data decimal_pandas (PyRef 1%positive) (initial_state t) = (Ok r, st1) ->
       exists st2, @clean_data decimal_pandas r st1 = (Ok r, st2) /\ heap st2 = heap st1).
Proof.
  intros Hclaim.
  destruct (Hclaim blank_channel_table (PyRef 1%positive)
              (snd (@clean_data decimal_pandas (PyRef 1%positive)
                      (initial_state blank_channel_table))))
    as (st2 & Hrun & _).
  - vm_compute. reflexivity.
  - vm_compute in Hrun. discriminate.
Qed.

(** C5, amended.  Cleaning a cleaned table changes nothing, where it can
    be cleaned again: when a second call of [clean_data] on the table the
    first call produced does not raise, it returns the same object and
    leaves the same table, and each step maps the values it produces to
    themselves. *)
Theorem clean_data_idempotent `{Pandas} :
  (forall l st t r st1 r' st2,
     heap st !! l = Some t ->
     clean_data (PyRef l) st = (Ok r, st1) ->
     clean_data r st1 = (Ok r', st2) ->
     r' = r /\ heap st2 = heap st1) /\
  (forall v, clean_gender (clean_gender v) = clean_gender v) /\
  (forall v, normalize_quantity (normalize_quantity v) = normalize_quantity v) /\
  (forall v, normalize_channel (normalize_channel v) = normalize_channel v) /\
  (forall v, to_numeric (to_numeric v) = to_numeric v) /\
  (forall column column', normalize_date column = Ok column' ->
     normalize_date column' = Ok column').
Proof.
  split; [| repeat split].
  - intros l st t r st1 r' st2 Hl Hfirst Hsecond.
    destruct (clean_data_ok _ _ _ _ _ Hl Hfirst) as (t' & Ht' & -> & ->).
    destruct (clean_data_ok l _ t' _ _ (lookup_insert_eq _ _ _) Hsecond)
      as (t'' & Ht'' & -> & ->).
    split; [done |]. simpl.
    rewrite (clean_frame_idem _ _ _ Ht' Ht''). apply insert_insert_eq.
  - apply clean_gender_idem.
  - intros v. unfold normalize_quantity.
    by rewrite qty_lambda_to_numeric, to_numeric_idem.
  - apply normalize_channel_idem.
  - apply to_numeric_idem.
  - intros column column' Hrun. by apply to_datetime_instants, (to_datetime_range column).
Qed.

Lemma clean_data_idempotent_witness :
  PyRef 1%positive = PyRef 1%positive /\
  heap (snd (@clean_data decimal_pandas (PyRef 1%positive)
               (snd (@clean_data decimal_pandas (PyRef 1%positive) (initial_state raw_table)))))
    = heap (snd (@clean_data decimal_pandas (PyRef 1%positive) (initial_state raw_table))).
Proof.
  apply (proj1 (@clean_data_idempotent decimal_pandas) 1%positive
           (initial_state raw_table) raw_table).
  - reflexivity.
  - vm_compute. reflexivity.
  - vm_compute. reflexivity.
Defined.

(** C8, as the specification words it, fails: after the call the table
    behind the argument is the cleaned one, the result is that very
    object, and two reports were written to the standard output. *)
Lemma clean_data_mutates_and_prints :
  ~ (forall t r st',
       @clean_data decimal_pandas (PyRef 1%positive) (initial_state t) = (Ok r, st') ->
       heap st' !! 1%positive = Some t /\ r <> PyRef 1%positive /\ stdout st' = []).
Proof.
  intros Hclaim.
  destruct (Hclaim raw_table (PyRef 1%positive)
              (snd (@clean_data decimal_pandas (PyRef 1%positive) (initial_state raw_table))))
    as (_ & Hr & _).
  - vm_compute. reflexivity.
  - by apply Hr.
Qed.

(** C8, amended.  [clean_data] works in place: it returns the table it
    was given, which then holds the cleaned contents; every other object
    is left as it was; and it appends two items to the standard output,
    the line "Dataset Info After Cleaning:" and the [info] report of the
    cleaned table. *)
Theorem clean_data_in_place `{Pandas} l st t r st' :
  heap st !! l = Some t ->
  clean_data (PyRef l) st = (Ok r, st') ->
  r = PyRef l /\
  exists t',
    clean_frame t = Ok t' /\
    heap st' !! l = Some t' /\
    (forall l', l' <> l -> heap st' !! l' = heap st !! l') /\
    stdout st' =
      (stdout st ++ [Line (NL +:+ "Dataset Info After Cleaning:"); InfoReport t'])%list.
Proof.
  intros Hl Hrun. destruct (clean_data_ok _ _ _ _ _ Hl Hrun) as (t' & Ht' & -> & ->).
  split; [done |]. exists t'. simpl. split; [done |].
  split; [apply lookup_insert_eq |].
  split; [| done]. intros l' Hne. by apply lookup_insert_ne.
Qed.

Lemma clean_data_in_place_witness :
  PyRef 1%positive = PyRef 1%positive /\
  exists t',
    @clean_frame decimal_pandas raw_table = Ok t' /\
    heap (snd (@clean_data decimal_pandas (PyRef 1%positive) (initial_state raw_table))) !! 1%positive
      = Some t' /\
    (forall l', l' <> 1%positive ->
       heap (snd (@clean_data decimal_pandas (PyRef 1%positive) (initial_state raw_table))) !! l'
         = heap (initial_state raw_table) !! l') /\
    stdout (snd (@clean_data decimal_pandas (PyRef 1%positive) (initial_state raw_table))) =
      (stdout (initial_state raw_table) ++
         [Line (NL +:+ "Dataset Info After Cleaning:"); InfoReport t'])%list.
Proof.
  apply (@clean_data_in_place decimal_pandas 1%positive (initial_state raw_table)
           raw_table (PyRef 1%positive)).
  - reflexivity.
  - vm_compute. reflexivity.
Defined.

(* ===================================================================== *)
(** ** [clean_data], step by step *)
(* ===================================================================== *)

Section StepFacts.
Context `{Pandas}.

(** The complete run of [clean_data] on a reference: where it stops, what
    it leaves in the table and what it has printed by then. *)
Lemma clean_data_steps l st t :
  heap st !! l = Some t ->
  clean_data (PyRef l) st =
    match run_steps steps (rename_columns "Channel " "Channel" t) with
    | (u, Some e) =>
        (Raise e, {| heap := <[l := u]> (heap st); stdout := stdout st |})
    | (u, None) =>
        match frame_get "Age" u ≫= series_apply get_age_group with
        | Ok age_group =>
            (Ok (PyRef l),
             {| heap := <[l := frame_set "Age Group" age_group u]> (heap st);
                stdout := stdout st ++ report (frame_set "Age Group" age_group u) |})
        | Raise e =>
            (Raise e, {| heap := <[l := u]> (heap st); stdout := stdout st |})
        end
    end.
Proof.
  intros Hl. unfold clean_data, rename_inplace, setitem, steps, run_steps, cellwise.
  rewrite bind_run, (update_run _ _ _ _ Hl).
  set (t0 := rename_columns "Channel " "Channel" t).
  repeat run_statement.
  rewrite bind_run, lift_run.
  destruct (series_apply get_age_group _) as [age_group | e]; [| reflexivity].
  rewrite bind_run, update_at, bind_run. unfold print. cbn [heap stdout].
  rewrite bind_run, info_at. unfold report. by rewrite <- app_assoc.
Qed.

End StepFacts.

Lemma occurrences_has_label key t : has_label key t = true <-> (1 <= occurrences key t)%nat.
Proof.
  unfold has_label, occurrences.
  induction (columns t) as [|kc cols IH]; simpl.
  - split; [discriminate | lia].
  - destruct (String.eqb (fst kc) key); simpl; [split; [lia | done] | exact IH].
Qed.

Lemma frame_get_once key t : occurrences key t = 1%nat <-> exists c, frame_get key t = Ok c.
Proof.
  unfold occurrences, frame_get.
  destruct (List.filter _ (columns t)) as [|kc [|kc' rest]]; simpl; split;
    try done; try (intros [c Hc]; discriminate); eauto.
Qed.

Lemma frame_get_absent key t :
  occurrences key t = 0%nat <-> frame_get key t = Raise (KeyError key).
Proof.
  unfold occurrences, frame_get.
  destruct (List.filter _ (columns t)) as [|kc [|kc' rest]]; simpl; split; done.
Qed.

(** [frame_get] raises about its own label only. *)
Lemma frame_get_raise key t e :
  frame_get key t = Raise e -> e = KeyError key \/ e = AmbiguousLabel key.
Proof.
  unfold frame_get. destruct (List.filter _ (columns t)) as [|kc [|kc' rest]];
    intros [= <-]; auto.
Qed.

Lemma occurrences_frame_set k key series t :
  has_label key t = true -> occurrences k (frame_set key series t) = occurrences k t.
Proof.
  intros Hkey. unfold occurrences. rewrite frame_set_columns, Hkey.
  destruct (String.eqb_spec k key) as [-> | Hne].
  - by rewrite filter_put_same, List.length_map.
  - by rewrite filter_put_other.
Qed.

Lemma frame_get_frame_set key series series' k t c :
  frame_get key t = Ok series ->
  frame_get k t = Ok c ->
  frame_get k (frame_set key series' t) = Ok (if String.eqb key k then series' else c).
Proof.
  intros Hkey Hk. destruct (String.eqb_spec key k) as [<- | Hne].
  - by rewrite (frame_get_set_eq _ _ _ _ Hkey).
  - by rewrite frame_get_set_ne.
Qed.

Lemma series_apply_total f s :
  Forall (fun v => exists w, f v = Ok w) s -> exists r, series_apply f s = Ok r.
Proof.
  induction 1 as [|v s [w Hv] _ [r IH]]; simpl; [by eexists |].
  rewrite Hv, IH. by eexists.
Qed.

Section RunSteps.
Context `{Pandas}.

Lemma through_other k todo c : ~ In k (map fst todo) -> through k todo c = Ok c.
Proof.
  revert c. induction todo as [|[key f] todo IH]; intros c Hk; simpl; [done |].
  destruct (String.eqb_spec key k) as [-> | Hne].
  - exfalso. apply Hk. by left.
  - apply IH. intros Hin. apply Hk. by right.
Qed.

Lemma run_steps_shape todo t :
  labels (fst (run_steps todo t)) = labels t /\ nrows (fst (run_steps todo t)) = nrows t.
Proof.
  revert t. induction todo as [|[key f] todo IH]; intros t; simpl; [done |].
  destruct (frame_get key t) as [series | e] eqn:E; [| done].
  destruct (f series) as [series' | e]; [| done].
  destruct (IH (frame_set key series' t)) as [-> ->].
  by rewrite frame_set_labels, (frame_get_has_label _ _ _ E).
Qed.

(** When no assignment of a list raises on the columns of a frame, the
    first one does not, and none of the others does on the frame it
    leaves. *)
Lemma through_head key f todo t series :
  frame_get key t = Ok series ->
  (forall k c, frame_get k t = Ok c -> exists c', through k ((key, f) :: todo) c = Ok c') ->
  exists series',
    f series = Ok series' /\
    through key todo series' = through key ((key, f) :: todo) series /\
    forall k c, frame_get k (frame_set key series' t) = Ok c ->
      exists c', through k todo c = Ok c'.
Proof.
  intros Hkey Hthrough.
  destruct (Hthrough _ _ Hkey) as [c' Hc']. simpl in Hc' |- *.
  rewrite String.eqb_refl in Hc' |- *.
  destruct (f series) as [series' | e] eqn:Ef; [| discriminate].
  exists series'. split; [done |]. split; [done |].
  intros k c Hk. destruct (String.eqb_spec key k) as [<- | Hne].
  - rewrite (frame_get_set_eq _ _ _ _ Hkey) in Hk. injection Hk as <-. eauto.
  - rewrite frame_get_set_ne in Hk by done.
    destruct (Hthrough _ _ Hk) as [c'' Hc'']. simpl in Hc''.
    apply String.eqb_neq in Hne. rewrite Hne in Hc''. eauto.
Qed.

(** When every label of the list names one column and no assignment
    raises, all the assignments run, and each column is its raw column
    taken through them. *)
Lemma run_steps_complete todo t :
  Forall (fun kf => occurrences (fst kf) t = 1%nat) todo ->
  (forall k c, frame_get k t = Ok c -> exists c', through k todo c = Ok c') ->
  snd (run_steps todo t) = None /\
  forall k c, frame_get k t = Ok c ->
    frame_get k (fst (run_steps todo t)) = through k todo c.
Proof.
  revert t. induction todo as [|[key f] todo IH]; intros t Hall Hthrough.
  - split; [done |]. by intros k c Hk.
  - apply Forall_cons in Hall as [Hkey Hall]. simpl in Hkey.
    apply frame_get_once in Hkey as [series Hkey].
    destruct (through_head _ _ _ _ _ Hkey Hthrough) as (series' & Hf & Hsame & Hrest).
    cbn [run_steps]. rewrite Hkey, Hf.
    assert (Hall' : Forall (fun kf => occurrences (fst kf)
                       (frame_set key series' t) = 1%nat) todo).
    { eapply Forall_impl; [exact Hall |]. intros kf Hkf. simpl in Hkf.
      by rewrite occurrences_frame_set by (by eapply frame_get_has_label). }
    destruct (IH _ Hall' Hrest) as [Hnone Hcols]. split; [done |].
    intros k c Hk.
    rewrite (Hcols k _ (frame_get_frame_set _ _ series' _ _ _ Hkey Hk)).
    simpl. destruct (String.eqb_spec key k) as [<- | Hne]; [| done].
    assert (c = series) as -> by congruence. by rewrite Hf.
Qed.

(** The first label that names no column stops the run with its
    [KeyError]; the assignments before it have been made. *)
Lemma run_steps_missing pre key f post t :
  Forall (fun kf => occurrences (fst kf) t = 1%nat) pre ->
  (forall k c, frame_get k t = Ok c -> exists c', through k pre c = Ok c') ->
  occurrences key t = 0%nat ->
  run_steps (pre ++ (key, f) :: post) t = (fst (run_steps pre t), Some (KeyError key)).
Proof.
  revert t. induction pre as [|[key' f'] pre IH]; intros t Hall Hthrough Hkey.
  - apply frame_get_absent in Hkey. simpl. by rewrite Hkey.
  - apply Forall_cons in Hall as [Hkey' Hall]. simpl in Hkey'.
    apply frame_get_once in Hkey' as [series Hkey'].
    destruct (through_head _ _ _ _ _ Hkey' Hthrough) as (series' & Hf & _ & Hrest).
    cbn [app run_steps]. rewrite Hkey', Hf.
    pose proof (frame_get_has_label _ _ _ Hkey') as Hhas.
    apply IH; [| done |].
    + eapply Forall_impl; [exact Hall |]. intros kf Hkf. simpl in Hkf.
      by rewrite occurrences_frame_set.
    + by rewrite occurrences_frame_set.
Qed.

(** [get_age_group] does not raise on a cell [pd.to_numeric] produced. *)
Lemma get_age_group_numeric v : exists g, get_age_group (to_numeric v) = Ok g.
Proof.
  destruct (to_numeric_range v) as [-> | [x ->]]; [by eexists |].
  unfold get_age_group; cbn [isna].
  repeat match goal with |- context [if ?b then _ else _] => destruct b end; by eexists.
Qed.

Lemma series_apply_age_ok age :
  exists age_group, series_apply get_age_group (map to_numeric age) = Ok age_group.
Proof.
  induction age as [|v age [ag IH]]; cbn [map series_apply]; [by eexists |].
  destruct (get_age_group_numeric v) as [g ->]. rewrite IH. by eexists.
Qed.

(** The Date columns [pd.to_datetime] converts whatever the library does
    with the other ones. *)
Lemma to_datetime_day_counts date :
  Forall is_day_count date \/ Forall is_date date ->
  exists date', to_datetime date = Ok date'.
Proof.
  intros [Hdays | Hdates].
  - apply series_apply_total. eapply Forall_impl; [exact Hdays |].
    intros v Hv. by apply to_datetime_cell_day_count.
  - exists date. apply to_datetime_instants, forallb_forall. intros v Hv.
    rewrite Forall_forall in Hdates.
    by destruct (Hdates v (proj2 (list_elem_of_In _ _) Hv)) as [-> | [ns ->]].
Qed.

End RunSteps.

Section Outcomes.
Context `{Pandas}.

(** [clean_frame] does not raise when the six labels name one column each,
    the accessor is given on the Channel column and the Date column is
    converted. *)
Lemma clean_frame_total t :
  Forall (fun k => occurrences k (rename_columns "Channel " "Channel" t) = 1%nat) required ->
  (forall channel,
     frame_get "Channel" (rename_columns "Channel " "Channel" t) = Ok channel ->
     str_accessor channel = true) ->
  (forall date,
     frame_get "Date" (rename_columns "Channel " "Channel" t) = Ok date ->
     exists date', to_datetime date = Ok date') ->
  exists t', clean_frame t = Ok t'.
Proof.
  intros Hall Hstr Hdate. rewrite clean_frame_unfold. cbv zeta.
  apply Forall_cons in Hall as [[gender EG]%frame_get_once Hall].
  apply Forall_cons in Hall as [[qty EQ]%frame_get_once Hall].
  apply Forall_cons in Hall as [[channel EC]%frame_get_once Hall].
  apply Forall_cons in Hall as [[age EA]%frame_get_once Hall].
  apply Forall_cons in Hall as [[date ED]%frame_get_once Hall].
  apply Forall_cons in Hall as [[amount EM]%frame_get_once Hall].
  destruct (Hdate _ ED) as [date' Hdate'].
  rewrite EG, EQ, EC. cbn [mbind outcome_bind].
  unfold normalize_channel_column. rewrite (Hstr _ EC).
  cbn [mbind outcome_bind]. rewrite EA, ED. cbn [mbind outcome_bind].
  rewrite Hdate'. cbn [mbind outcome_bind]. rewrite EM. cbn [mbind outcome_bind].
  destruct (series_apply_age_ok age) as [ag ->].
  by eexists.
Qed.

Lemma step_prefixes pre key post :
  required = (pre ++ key :: post)%list ->
  exists spre f spost,
    steps = (spre ++ (key, f) :: spost)%list /\
    (forall P : string -> Prop, Forall P pre -> Forall (fun kf => P (fst kf)) spre) /\
    (forall k, In k (map fst spre) -> In k pre) /\
    (forall k c, In k pre -> through k spre c = step_of k c).
Proof.
  unfold required. intros Hreq.
  repeat (destruct pre as [|? pre]; cbn [app] in Hreq;
          [injection Hreq as <- <- | injection Hreq as <- Hreq]);
    try (by destruct pre).
  - exists [], (cellwise clean_gender), (tl steps).
    repeat split; [constructor | by intros k [] | by intros k c []].
  - exists [("Gender", cellwise clean_gender)], (cellwise qty_lambda), (tl (tl steps)).
    repeat split.
    + intros P HP. repeat (apply Forall_cons in HP as [? HP]). by repeat constructor.
    + simpl. tauto.
    + intros k c [<- | []]. reflexivity.
  - exists [("Gender", cellwise clean_gender); ("Qty", cellwise qty_lambda);
            ("Qty", cellwise to_numeric)],
      normalize_channel_column, (tl (tl (tl (tl steps)))).
    repeat split.
    + intros P HP. repeat (apply Forall_cons in HP as [? HP]). by repeat constructor.
    + simpl. tauto.
    + intros k c [<- | [<- | []]]; [reflexivity |].
      unfold step_of, cellwise, normalize_quantity; simpl. by rewrite map_map.
  - exists [("Gender", cellwise clean_gender); ("Qty", cellwise qty_lambda);
            ("Qty", cellwise to_numeric); ("Channel", normalize_channel_column)],
      (cellwise to_numeric), (tl (tl (tl (tl (tl steps))))).
    repeat split.
    + intros P HP. repeat (apply Forall_cons in HP as [? HP]). by repeat constructor.
    + simpl. tauto.
    + intros k c [<- | [<- | [<- | []]]]; [reflexivity | |].
      * unfold step_of, cellwise, normalize_quantity; simpl. by rewrite map_map.
      * unfold step_of; simpl. by destruct (normalize_channel_column c).
  - exists [("Gender", cellwise clean_gender); ("Qty", cellwise qty_lambda);
            ("Qty", cellwise to_numeric); ("Channel", normalize_channel_column);
            ("Age", cellwise to_numeric)],
      to_datetime, (tl (tl (tl (tl (tl (tl steps)))))).
    repeat split.
    + intros P HP. repeat (apply Forall_cons in HP as [? HP]). by repeat constructor.
    + simpl. tauto.
    + intros k c [<- | [<- | [<- | [<- | []]]]]; [reflexivity | | | reflexivity].
      * unfold step_of, cellwise, normalize_quantity; simpl. by rewrite map_map.
      * unfold step_of; simpl. by destruct (normalize_channel_column c).
  - exists [("Gender", cellwise clean_gender); ("Qty", cellwise qty_lambda);
            ("Qty", cellwise to_numeric); ("Channel", normalize_channel_column);
            ("Age", cellwise to_numeric); ("Date", to_datetime)],
      (cellwise to_numeric), [].
    repeat split.
    + intros P HP. repeat (apply Forall_cons in HP as [? HP]). by repeat constructor.
    + simpl. tauto.
    + intros k c [<- | [<- | [<- | [<- | [<- | []]]]]]; [reflexivity | | | reflexivity |].
      * unfold step_of, cellwise, normalize_quantity; simpl. by rewrite map_map.
      * unfold step_of; simpl. by destruct (normalize_channel_column c).
      * unfold step_of, normalize_date; simpl. by destruct (to_datetime c).
Qed.

(** The run of [clean_data] on a table in which a label that is read names
    no column, while the labels read before it name one each and their
    steps do not raise. *)
Lemma clean_data_key_error l st t pre key post :
  heap st !! l = Some t ->
  required = (pre ++ key :: post)%list ->
  Forall (fun k => occurrences k (rename_columns "Channel " "Channel" t) = 1%nat) pre ->
  (forall k c, In k pre ->
     frame_get k (rename_columns "Channel " "Channel" t) = Ok c ->
     exists c', step_of k c = Ok c') ->
  occurrences key (rename_columns "Channel " "Channel" t) = 0%nat ->
  exists u,
    clean_data (PyRef l) st =
      (Raise (KeyError key), {| heap := <[l := u]> (heap st); stdout := stdout st |}) /\
    labels u = labels (rename_columns "Channel " "Channel" t) /\
    nrows u = nrows t /\
    forall k c, In k pre ->
      frame_get k (rename_columns "Channel " "Channel" t) = Ok c ->
      frame_get k u = step_of k c.
Proof.
  intros Hl Hreq Hpre Hsteps Hkey.
  destruct (step_prefixes _ _ _ Hreq)
    as (spre & f & spost & Hsplit & Hall & Hlabels & Hthrough).
  set (t0 := rename_columns "Channel " "Channel" t) in *.
  pose proof (Hall (fun k => occurrences k t0 = 1%nat) Hpre) as Hspre.
  assert (Hok : forall k c, frame_get k t0 = Ok c -> exists c', through k spre c = Ok c').
  { intros k c Hk. destruct (in_dec string_dec k pre) as [Hin | Hout].
    - rewrite Hthrough by done. by apply Hsteps.
    - exists c. apply through_other. intros Hin. by apply Hout, Hlabels. }
  exists (fst (run_steps spre t0)).
  rewrite (clean_data_steps _ _ _ Hl), Hsplit. fold t0.
  rewrite (run_steps_missing _ _ _ _ _ Hspre Hok Hkey).
  destruct (run_steps_shape spre t0) as [Hlab Hrows].
  repeat split; [done | done |].
  intros k c Hk Hc.
  rewrite (proj2 (run_steps_complete _ _ Hspre Hok) k c Hc). by apply Hthrough.
Qed.

End Outcomes.

(** X1. When, after the header rename, each of Gender, Qty, Channel, Age,
    Date and Amount names exactly one column, the Channel column holds a
    text, and the Date column holds whole numbers of days between -106751
    and 106751 and missing values only, or dates and missing values only,
    [clean_data] succeeds: no other cell value makes it raise. *)
Theorem clean_data_succeeds `{Pandas} l st t :
  heap st !! l = Some t ->
  Forall (fun k => occurrences k (rename_columns "Channel " "Channel" t) = 1%nat) required ->
  channel_holds_text t ->
  dates_are_read t ->
  exists st', clean_data (PyRef l) st = (Ok (PyRef l), st').
Proof.
  intros Hl Hall Htext Hdates.
  destruct (clean_frame_total t Hall) as [t' Ht'].
  - intros channel Hc. destruct (Htext _ Hc) as [s Hs]. by apply (str_accessor_text _ s).
  - intros date Hd. by apply to_datetime_day_counts, Hdates.
  - pose proof (clean_data_run l st t Hl) as Hrun. rewrite Ht' in Hrun. eauto.
Qed.

Lemma clean_data_succeeds_witness :
  exists st',
    @clean_data decimal_pandas (PyRef 1%positive) (initial_state blank_channel_table) =
      (Ok (PyRef 1%positive), st').
Proof.
  apply (@clean_data_succeeds decimal_pandas 1%positive
           (initial_state blank_channel_table) blank_channel_table).
  - reflexivity.
  - repeat constructor.
  - intros channel Hc. vm_compute in Hc. injection Hc as <-.
    exists EmptyString. simpl. tauto.
  - intros date Hd. vm_compute in Hd. injection Hd as <-.
    left. apply Forall_cons. split; [| constructor].
    right. exists 19000. split; [reflexivity | lia].
Defined.

(** X2. When a label that is read names no column, while the labels read
    before it name one each and their steps do not raise, [clean_data]
    raises the [KeyError] of that label and prints nothing; the header is
    renamed by then, and the columns read before are left cleaned in the
    table: nothing is rolled back. *)
Theorem clean_data_missing_column `{Pandas} l st t pre key post :
  heap st !! l = Some t ->
  required = (pre ++ key :: post)%list ->
  Forall (fun k => occurrences k (rename_columns "Channel " "Channel" t) = 1%nat) pre ->
  (forall k c, In k pre ->
     frame_get k (rename_columns "Channel " "Channel" t) = Ok c ->
     exists c', step_of k c = Ok c') ->
  occurrences key (rename_columns "Channel " "Channel" t) = 0%nat ->
  exists u,
    clean_data (PyRef l) st =
      (Raise (KeyError key), {| heap := <[l := u]> (heap st); stdout := stdout st |}) /\
    labels u = labels (rename_columns "Channel " "Channel" t) /\
    nrows u = nrows t /\
    forall k c, In k pre ->
      frame_get k (rename_columns "Channel " "Channel" t) = Ok c ->
      frame_get k u = step_of k c.
Proof. apply clean_data_key_error. Qed.

Lemma clean_data_missing_column_witness :
  exists u,
    @clean_data decimal_pandas (PyRef 1%positive) (initial_state no_qty_table) =
      (Raise (KeyError "Qty"),
       {| heap := <[1%positive := u]> (heap (initial_state no_qty_table));
          stdout := stdout (initial_state no_qty_table) |}) /\
    labels u = labels (rename_columns "Channel " "Channel" no_qty_table) /\
    nrows u = nrows no_qty_table /\
    forall k c, In k ["Gender"] ->
      frame_get k (rename_columns "Channel " "Channel" no_qty_table) = Ok c ->
      frame_get k u = @step_of decimal_pandas k c.
Proof.
  apply (@clean_data_missing_column decimal_pandas 1%positive (initial_state no_qty_table)
           no_qty_table ["Gender"] "Qty" ["Channel"; "Age"; "Date"; "Amount"]).
  - reflexivity.
  - reflexivity.
  - repeat constructor.
  - intros k c [<- | []] _. by eexists.
  - reflexivity.
Defined.

(** X3. When [clean_data] raises, it has printed nothing and changed no
    other object, and the table it was given has its rows and its columns
    under the renamed header, with no column added. *)
Theorem clean_data_failure `{Pandas} l st t e st' :
  heap st !! l = Some t ->
  clean_data (PyRef l) st = (Raise e, st') ->
  stdout st' = stdout st /\
  exists u,
    heap st' = <[l := u]> (heap st) /\
    labels u = labels (rename_columns "Channel " "Channel" t) /\
    nrows u = nrows t.
Proof.
  intros Hl Hrun.
  rewrite (clean_data_steps _ _ _ Hl) in Hrun.
  destruct (run_steps_shape steps (rename_columns "Channel " "Channel" t)) as [Hlab Hrows].
  destruct (run_steps steps _) as [u [e' |]]; simpl in *.
  - injection Hrun as <- <-. simpl. eauto.
  - destruct (frame_get "Age" u ≫= series_apply get_age_group); [discriminate |].
    injection Hrun as <- <-. simpl. eauto.
Qed.

Lemma clean_data_failure_witness :
  stdout (snd (@clean_data decimal_pandas (PyRef 1%positive)
                 (initial_state numbered_channel_table)))
    = stdout (initial_state numbered_channel_table) /\
  exists u,
    heap (snd (@clean_data decimal_pandas (PyRef 1%positive)
                 (initial_state numbered_channel_table)))
      = <[1%positive := u]> (heap (initial_state numbered_channel_table)) /\
    labels u = labels (rename_columns "Channel " "Channel" numbered_channel_table) /\
    nrows u = nrows numbered_channel_table.
Proof.
  apply (@clean_data_failure decimal_pandas 1%positive (initial_state numbered_channel_table)
           numbered_channel_table AttributeError).
  - reflexivity.
  - vm_compute. reflexivity.
Defined.

(* ===================================================================== *)
(** ** What the cleaned table holds *)
(* ===================================================================== *)

Lemma nth_error_frame_set key series t i k c :
  nth_error (columns t) i = Some (k, c) -> k <> key ->
  nth_error (columns (frame_set key series t)) i = Some (k, c).
Proof.
  intros Hi Hne. rewrite frame_set_columns. destruct (has_label key t).
  - rewrite nth_error_map, Hi. simpl. by rewrite put_other.
  - rewrite nth_error_app1; [done |]. apply nth_error_Some. congruence.
Qed.

Lemma nth_error_rename old new t i k c :
  nth_error (columns t) i = Some (k, c) -> k <> old ->
  nth_error (columns (rename_columns old new t)) i = Some (k, c).
Proof.
  intros Hi Hne. simpl. rewrite nth_error_map, Hi. simpl.
  by destruct (String.eqb_spec k old).
Qed.

Lemma frame_set_In_inv key series t c :
  In (key, c) (columns (frame_set key series t)) -> c = series.
Proof.
  rewrite frame_set_columns. destruct (has_label key t) eqn:E.
  - intros [kc [Hput _]]%in_map_iff.
    destruct (String.eqb_spec (fst kc) key) as [Ek | Ek].
    + rewrite put_same in Hput by done. congruence.
    + rewrite put_other in Hput by done. by subst kc.
  - intros [Hin | [Hin | []]]%in_app_or; [| congruence].
    assert (has_label key t = true) by (apply has_label_In; eauto). congruence.
Qed.

Lemma get_age_group_range a g : get_age_group a = Ok g -> is_age_group g /\ (g = NaN <-> a = NaN).
Proof.
  unfold get_age_group, is_age_group. destruct a as [| s | x | ns]; cbn [isna]; try done.
  - intros [= <-]. auto.
  - repeat match goal with |- context [if ?b then _ else _] => destruct b end;
      intros [= <-]; (split; [auto 6 | split; discriminate]).
Qed.

Section Domains.
Context `{Pandas}.

Lemma normalize_channel_range v : is_channel (normalize_channel v).
Proof.
  destruct v as [| s | |]; try (by left).
  rewrite normalize_channel_text.
  destruct (String.eqb_spec (py_strip s) "") as [E | E]; [by left |].
  right. exists (py_title (py_strip s)). repeat split.
  - unfold py_title. by rewrite title_empty.
  - apply strip_title_strip.
  - unfold py_title. apply title_from_idem.
Qed.

Lemma normalize_quantity_range v : is_numeric (normalize_quantity v).
Proof. apply to_numeric_range. Qed.

Lemma Forall_map_range {A B} (P : B -> Prop) (f : A -> B) l :
  (forall x, P (f x)) -> Forall P (map f l).
Proof. intros Hf. induction l; simpl; constructor; auto. Qed.

(** The canonical domains of a cleaned frame. *)
Lemma clean_frame_domains t t' :
  clean_frame t = Ok t' ->
  (forall c, frame_get "Gender" t' = Ok c -> Forall is_gender c) /\
  (forall c, frame_get "Qty" t' = Ok c -> Forall is_numeric c) /\
  (forall c, frame_get "Channel" t' = Ok c -> Forall is_channel c) /\
  (forall c, frame_get "Age" t' = Ok c -> Forall is_numeric c) /\
  (forall c, frame_get "Date" t' = Ok c -> Forall is_date c) /\
  (forall c, frame_get "Amount" t' = Ok c -> Forall is_numeric c) /\
  (forall c, In ("Age Group", c) (columns t') -> Forall is_age_group c).
Proof.
  intros Hclean.
  destruct (clean_frame_columns _ _ Hclean)
    as (gender & qty & channel & age & date & amount & age_group &
        [_ G] & [_ Q] & [_ C] & [_ A] & [(raw & _ & Hdate) D] & [_ M'] & [EAG _]).
  repeat split; intros c Hc.
  - rewrite G in Hc. injection Hc as <-. apply Forall_map_range, clean_gender_range.
  - rewrite Q in Hc. injection Hc as <-. apply Forall_map_range, normalize_quantity_range.
  - rewrite C in Hc. injection Hc as <-. apply Forall_map_range, normalize_channel_range.
  - rewrite A in Hc. injection Hc as <-. apply Forall_map_range, to_numeric_range.
  - rewrite D in Hc. injection Hc as <-. by apply (to_datetime_dates raw).
  - rewrite M' in Hc. injection Hc as <-. apply Forall_map_range, to_numeric_range.
  - apply clean_frame_inv in Hclean
      as (? & ? & ? & age' & ? & ? & ag' & _ & _ & _ & _ & _ & _ & EAG' & ->).
    unfold assemble in Hc. apply frame_set_In_inv in Hc as ->.
    apply series_apply_Forall2 in EAG'.
    clear -EAG'. induction EAG' as [|a g s r Hg _ IH]; constructor; [| exact IH].
    by apply get_age_group_range in Hg as [Hg _].
Qed.

End Domains.

(** X4. [clean_data] leaves every column alone whose label is none of
    "Channel ", Channel, Gender, Qty, Age, Date, Amount and Age Group:
    such a column keeps its place, its label and its cells. *)
Theorem clean_data_leaves_other_columns `{Pandas} l st t r st' :
  heap st !! l = Some t ->
  clean_data (PyRef l) st = (Ok r, st') ->
  exists t',
    heap st' !! l = Some t' /\
    forall i k c, nth_error (columns t) i = Some (k, c) -> ~ In k touched ->
      nth_error (columns t') i = Some (k, c).
Proof.
  intros Hl Hrun. destruct (clean_data_ok _ _ _ _ _ Hl Hrun) as (t' & Ht' & _ & ->).
  exists t'. simpl. rewrite lookup_insert_eq. split; [done |].
  intros i k c Hi Hk.
  apply clean_frame_inv in Ht'
    as (? & ? & ? & ? & ? & ? & ? & _ & _ & _ & _ & _ & _ & _ & ->).
  unfold touched in Hk. simpl in Hk.
  unfold assemble.
  repeat (apply nth_error_frame_set; [| intros ->; tauto]).
  apply nth_error_rename; [done | intros ->; tauto].
Qed.

Lemma clean_data_leaves_other_columns_witness :
  exists t',
    heap (snd (@clean_data decimal_pandas (PyRef 1%positive) (initial_state raw_table)))
      !! 1%positive = Some t' /\
    forall i k c, nth_error (columns raw_table) i = Some (k, c) -> ~ In k touched ->
      nth_error (columns t') i = Some (k, c).
Proof.
  apply (@clean_data_leaves_other_columns decimal_pandas 1%positive
           (initial_state raw_table) raw_table (PyRef 1%positive)).
  - reflexivity.
  - vm_compute. reflexivity.
Defined.

(** X5. In the table [clean_data] produces, a Gender cell is Female, Male
    or missing; a Qty, Age or Amount cell is a number or missing; a Date
    cell is a timestamp or missing; a Channel cell is missing or a text
    that is not empty and that trimming and title-casing leave as it is;
    an Age Group cell is Teenager, Adult, Senior, Other or missing. *)
Theorem clean_data_canonical_domains `{Pandas} l st t r st' :
  heap st !! l = Some t ->
  clean_data (PyRef l) st = (Ok r, st') ->
  exists t',
    heap st' !! l = Some t' /\
    (forall c, frame_get "Gender" t' = Ok c -> Forall is_gender c) /\
    (forall c, frame_get "Qty" t' = Ok c -> Forall is_numeric c) /\
    (forall c, frame_get "Channel" t' = Ok c -> Forall is_channel c) /\
    (forall c, frame_get "Age" t' = Ok c -> Forall is_numeric c) /\
    (forall c, frame_get "Date" t' = Ok c -> Forall is_date c) /\
    (forall c, frame_get "Amount" t' = Ok c -> Forall is_numeric c) /\
    (forall c, In ("Age Group", c) (columns t') -> Forall is_age_group c).
Proof.
  intros Hl Hrun. destruct (clean_data_ok _ _ _ _ _ Hl Hrun) as (t' & Ht' & _ & ->).
  exists t'. simpl. rewrite lookup_insert_eq. split; [done |].
  exact (clean_frame_domains _ _ Ht').
Qed.

Lemma clean_data_canonical_domains_witness :
  exists t',
    heap (snd (@clean_data decimal_pandas (PyRef 1%positive) (initial_state raw_table)))
      !! 1%positive = Some t' /\
    (forall c, frame_get "Gender" t' = Ok c -> Forall is_gender c) /\
    (forall c, frame_get "Qty" t' = Ok c -> Forall is_numeric c) /\
    (forall c, frame_get "Channel" t' = Ok c -> Forall is_channel c) /\
    (forall c, frame_get "Age" t' = Ok c -> Forall is_numeric c) /\
    (forall c, frame_get "Date" t' = Ok c -> Forall is_date c) /\
    (forall c, frame_get "Amount" t' = Ok c -> Forall is_numeric c) /\
    (forall c, In ("Age Group", c) (columns t') -> Forall is_age_group c).
Proof.
  apply (@clean_data_canonical_domains decimal_pandas 1%positive
           (initial_state raw_table) raw_table (PyRef 1%positive)).
  - reflexivity.
  - vm_compute. reflexivity.
Defined.

(** X6. In the table [clean_data] produces, the Age Group column follows
    the cleaned Age column row by row: each cell is [get_age_group] of the
    age in its row, and it is missing exactly where the age is missing. *)
Theorem age_group_follows_age `{Pandas} l st t r st' :
  heap st !! l = Some t ->
  clean_data (PyRef l) st = (Ok r, st') ->
  exists t' age age_group,
    heap st' !! l = Some t' /\
    frame_get "Age" t' = Ok age /\
    In ("Age Group", age_group) (columns t') /\
    Forall2 (fun a g => get_age_group a = Ok g /\ (g = NaN <-> a = NaN)) age age_group.
Proof.
  intros Hl Hrun. destruct (clean_data_ok _ _ _ _ _ Hl Hrun) as (t' & Ht' & _ & ->).
  destruct (clean_frame_columns _ _ Ht')
    as (_ & _ & _ & age & _ & _ & age_group & _ & _ & _ & [_ A] & _ & _ & [EAG AG]).
  exists t', (map to_numeric age), age_group. simpl. rewrite lookup_insert_eq.
  repeat split; try done.
  apply series_apply_Forall2 in EAG.
  clear -EAG. induction EAG as [|a g s r' Hg _ IH]; constructor; [| exact IH].
  split; [done | by apply get_age_group_range in Hg as [_ Hg]].
Qed.

Lemma age_group_follows_age_witness :
  exists t' age age_group,
    heap (snd (@clean_data decimal_pandas (PyRef 1%positive) (initial_state raw_table)))
      !! 1%positive = Some t' /\
    frame_get "Age" t' = Ok age /\
    In ("Age Group", age_group) (columns t') /\
    Forall2 (fun a g => get_age_group a = Ok g /\ (g = NaN <-> a = NaN)) age age_group.
Proof.
  apply (@age_group_follows_age decimal_pandas 1%positive
           (initial_state raw_table) raw_table (PyRef 1%positive)).
  - reflexivity.
  - vm_compute. reflexivity.
Defined.

(* ===================================================================== *)
(** ** The table of quantity words *)
(* ===================================================================== *)

Lemma rstrip_lower_fixed s : py_rstrip (py_lower s) = py_lower s -> py_rstrip s = s.
Proof.
  induction s as [|c s IH]; [done |]. cbn [py_lower py_rstrip].
  rewrite isspace_to_lower.
  destruct (py_rstrip (py_lower s)) as [|a b] eqn:E.
  - destruct (isspace c) eqn:Ec; [discriminate |].
    intros [= Hs]. destruct s; [done | discriminate].
  - intros [= Hs]. rewrite IH by congruence.
    destruct s; [discriminate | done].
Qed.

Lemma starts_clean_lower s : starts_clean (py_lower s) -> starts_clean s.
Proof. destruct s as [|c s]; simpl; [done | by rewrite isspace_to_lower]. Qed.

(** A text whose lower-case form is one of the three words has no
    whitespace around it. *)
Lemma quantity_word_trimmed s :
  py_lower s ∈ ["one"; "two"; "three"] -> py_strip s = s.
Proof.
  intros Hs. apply strip_id.
  - apply starts_clean_lower.
    repeat (apply elem_of_cons in Hs as [-> | Hs]); try done. by apply elem_of_nil in Hs.
  - apply rstrip_lower_fixed.
    repeat (apply elem_of_cons in Hs as [-> | Hs]); try done. by apply elem_of_nil in Hs.
Qed.

Section QuantityWords.
Context `{Pandas}.

Lemma qty_map_lookup_lower s : qty_map !! py_lower s = qty_map_lower !! py_lower s.
Proof.
  destruct (decide (py_lower s ∈ ["one"; "two"; "three"])) as [Hin | Hout].
  - repeat (apply elem_of_cons in Hin as [-> | Hin]); try reflexivity.
    by apply elem_of_nil in Hin.
  - rewrite (qty_map_miss s Hout). symmetry.
    unfold qty_map_lower; simpl.
    repeat (apply not_elem_of_cons in Hout as [? Hout]).
    by rewrite !lookup_insert_ne, lookup_empty.
Qed.

End QuantityWords.

(** X7. The entries One, Two and Three of [qty_map] are never used: the
    key looked up is in lower case, so the lambda of line 46 gives the same
    result with the three lower-case entries alone. *)
Theorem qty_map_capitalised_keys_unused `{Pandas} (x : value) :
  qty_lambda x =
    if is_str x then dict_get qty_map_lower (py_lower (py_str x)) x else x.
Proof.
  destruct x as [| s | |]; try reflexivity.
  unfold qty_lambda, dict_get; simpl. by rewrite qty_map_lookup_lower.
Qed.

(** X8. Unlike a gender, a quantity is not trimmed before it is looked
    up: the lambda of line 46 leaves every text with whitespace at its
    start or at its end as it is, a padded word such as " two" included. *)
Theorem padded_quantity_is_not_a_word `{Pandas} (s : string) :
  py_strip s <> s -> qty_lambda (Str s) = Str s.
Proof.
  intros Hs. unfold qty_lambda, dict_get; simpl.
  destruct (decide (py_lower s ∈ ["one"; "two"; "three"])) as [Hin | Hout].
  - by apply quantity_word_trimmed in Hin.
  - by rewrite (qty_map_miss s Hout).
Qed.

Lemma padded_quantity_is_not_a_word_witness :
  @qty_lambda decimal_pandas (Str " two") = Str " two".
Proof.
  apply (@padded_quantity_is_not_a_word decimal_pandas " two"). vm_compute. discriminate.
Defined.

(* ===================================================================== *)
(** ** Loading, the two consumers and [main] *)
(* ===================================================================== *)

Lemma read_run {A} l (f : DataFrame -> outcome A) st t :
  heap st !! l = Some t -> read l f st = (f t, st).
Proof. unfold read. by intros ->. Qed.

Lemma fresh_unused (h : gmap loc DataFrame) : h !! fresh (dom h) = None.
Proof. apply not_elem_of_dom, is_fresh. Qed.

Lemma clean_data_raise_quiet `{Pandas} l st t e :
  heap st !! l = Some t ->
  clean_frame t = Raise e ->
  exists st', clean_data (PyRef l) st = (Raise e, st') /\ stdout st' = stdout st.
Proof.
  intros Hl Hraise. pose proof (clean_data_run l st t Hl) as Hspec.
  rewrite Hraise in Hspec. rewrite (clean_data_steps _ _ _ Hl) in Hspec |- *.
  destruct (run_steps steps _) as [u [e' |]]; simpl in *.
  - injection Hspec as ->. eauto.
  - destruct (frame_get "Age" u ≫= series_apply get_age_group); [discriminate |].
    simpl in Hspec. injection Hspec as ->. eauto.
Qed.

Lemma clean_frame_needs_label `{Pandas} t k :
  In k required ->
  occurrences k (rename_columns "Channel " "Channel" t) = 0%nat ->
  exists e, clean_frame t = Raise e.
Proof.
  intros Hk Hocc. destruct (clean_frame t) as [t' | e] eqn:E; [| by eexists].
  exfalso. apply clean_frame_inv in E
    as (? & ? & ? & ? & ? & ? & ? & EG & EQ & [EC _] & EA & (? & ED & _) & EM & _).
  apply frame_get_absent in Hocc.
  unfold required in Hk. simpl in Hk.
  repeat (destruct Hk as [<- | Hk]; [congruence |]). done.
Qed.

Lemma frame_empty_no_rows t : nrows t = 0%nat -> frame_empty t = true.
Proof. unfold frame_empty. by intros ->. Qed.

(** X9. [load_data] never raises: whatever the reader does, it returns,
    and it returns [None] exactly when the reader did not hand over a
    table.  It prints one line, leaves every existing table as it is, and a
    table it returns is a new object holding what the reader read. *)
Theorem load_data_never_raises `{Collaborators} (file_path : string) (st : state) :
  exists r st',
    load_data file_path st = (Ok r, st') /\
    (r = PyNone <-> forall t, read_excel file_path <> Loaded t) /\
    (exists text, stdout st' = (stdout st ++ [Line text])%list) /\
    (forall l t, heap st !! l = Some t -> heap st' !! l = Some t) /\
    (forall l, r = PyRef l ->
       heap st !! l = None /\
       exists t, read_excel file_path = Loaded t /\ heap st' !! l = Some t).
Proof.
  unfold load_data. destruct (read_excel file_path) as [t | | message].
  - eexists _, _. split; [reflexivity |]. cbn [heap stdout].
    pose proof (fresh_unused (heap st)) as Hfresh.
    split; [split; [discriminate | intros Hno; by destruct (Hno t)] |].
    split; [by eexists |]. split.
    + intros l u Hl. rewrite lookup_insert_ne; [done | congruence].
    + intros l [= <-]. split; [done |]. exists t. by rewrite lookup_insert_eq.
  - eexists _, _. split; [reflexivity |]. cbn [heap stdout].
    repeat split; try done. by eexists.
  - eexists _, _. split; [reflexivity |]. cbn [heap stdout].
    repeat split; try done. by eexists.
Qed.

(** X10. When the spreadsheet cannot be read, [main] does not raise: each
    of its four stages prints its own diagnostic, no table is created, and
    the run ends with the line that reports success. *)
Theorem main_without_file `{Pandas} `{Collaborators} (st : state) :
  (forall t, read_excel FILE_PATH <> Loaded t) ->
  exists text,
    main st =
      (Ok tt,
       {| heap := heap st;
          stdout :=
            (stdout st ++
             [Line text;
              Line "Error: No data to clean.";
              Line "Error: No data for hypothesis testing.";
              Line "Error: No data for visualization.";
              Line (NL +:+ "Data cleaning, hypothesis testing, and visualizations completed successfully.")])%list |}).
Proof.
  intros Hno. unfold main, load_data.
  destruct (read_excel FILE_PATH) as [t | | message]; [by destruct (Hno t) | |];
    eexists;
    cbv beta iota zeta delta [mbind M_bind print mret M_ret clean_data hypothesis_testing
      visualize_data heap stdout];
    by rewrite <- !app_assoc.
Qed.

Lemma main_without_file_witness :
  exists text,
    @main decimal_pandas (with_file None) (initial_state raw_table) =
      (Ok tt,
       {| heap := heap (initial_state raw_table);
          stdout :=
            (stdout (initial_state raw_table) ++
             [Line text;
              Line "Error: No data to clean.";
              Line "Error: No data for hypothesis testing.";
              Line "Error: No data for visualization.";
              Line (NL +:+ "Data cleaning, hypothesis testing, and visualizations completed successfully.")])%list |}).
Proof.
  apply (@main_without_file decimal_pandas (with_file None) (initial_state raw_table)).
  intros t. discriminate.
Defined.

(** X11. When the spreadsheet is read and one of the six columns
    [clean_data] reads is not in it, [main] stops with the exception of
    [clean_data], which nothing catches: after the line of the loader
    nothing more is printed, the line that reports success included. *)
Theorem main_missing_column `{Pandas} `{Collaborators} (st : state) t k :
  read_excel FILE_PATH = Loaded t ->
  In k required ->
  occurrences k (rename_columns "Channel " "Channel" t) = 0%nat ->
  exists e st',
    main st = (Raise e, st') /\
    stdout st' = (stdout st ++ [Line "Data loaded successfully."])%list.
Proof.
  intros Hread Hk Hocc. destruct (clean_frame_needs_label t k Hk Hocc) as [e He].
  unfold main, load_data. rewrite Hread.
  set (st1 := {| heap := <[fresh (dom (heap st)) := t]> (heap st);
                 stdout := stdout st ++ [Line "Data loaded successfully."] |}).
  destruct (clean_data_raise_quiet (fresh (dom (heap st))) st1 t e) as (st' & Hrun & Hout);
    [apply lookup_insert_eq | done |].
  exists e, st'. split; [| done].
  unfold mbind, M_bind, alloc, print, mret, M_ret. cbn [heap stdout].
  fold st1. by rewrite Hrun.
Qed.

Lemma main_missing_column_witness :
  exists e st',
    @main decimal_pandas (with_file (Some no_qty_table)) (initial_state raw_table)
      = (Raise e, st') /\
    stdout st' =
      (stdout (initial_state raw_table) ++ [Line "Data loaded successfully."])%list.
Proof.
  apply (@main_missing_column decimal_pandas (with_file (Some no_qty_table))
           (initial_state raw_table) no_qty_table "Qty").
  - reflexivity.
  - simpl. tauto.
  - reflexivity.
Defined.

(** X12. When the spreadsheet has its columns and no row, [main] cleans the
    empty table and reports on it, both consumers decline it with their
    diagnostic, and no test is run and no chart is drawn. *)
Theorem main_on_table_without_rows `{Pandas} `{Collaborators} (st : state) t :
  read_excel FILE_PATH = Loaded t ->
  nrows t = 0%nat ->
  Forall (fun k => occurrences k (rename_columns "Channel " "Channel" t) = 1%nat) required ->
  exists l t',
    heap st !! l = None /\
    clean_frame t = Ok t' /\
    main st =
      (Ok tt,
       {| heap := <[l := t']> (heap st);
          stdout :=
            (stdout st ++
             [Line "Data loaded successfully.";
              Line (NL +:+ "Dataset Info After Cleaning:");
              InfoReport t';
              Line "Error: No data for hypothesis testing.";
              Line "Error: No data for visualization.";
              Line (NL +:+ "Data cleaning, hypothesis testing, and visualizations completed successfully.")])%list |}).
Proof.
  intros Hread Hrows Hall.
  assert (Hnone : forall k c,
            frame_get k (rename_columns "Channel " "Channel" t) = Ok c -> c = []).
  { intros k c Hc. apply nil_length_inv. rewrite <- Hrows.
    apply (frame_get_length k (rename_columns "Channel " "Channel" t)); [| done].
    apply rename_well_formed. by apply (read_excel_well_formed FILE_PATH). }
  destruct (clean_frame_total t Hall) as [t' Ht'].
  { intros channel Hc. by rewrite (Hnone _ _ Hc). }
  { intros date Hd. rewrite (Hnone _ _ Hd). by exists []. }
  exists (fresh (dom (heap st))), t'.
  split; [apply fresh_unused |]. split; [done |].
  unfold main, load_data. rewrite Hread.
  set (l := fresh (dom (heap st))).
  set (st1 := {| heap := <[l := t]> (heap st);
                 stdout := stdout st ++ [Line "Data loaded successfully."] |}).
  pose proof (clean_data_run l st1 t (lookup_insert_eq _ _ _)) as Hrun.
  rewrite Ht' in Hrun.
  assert (Hempty : frame_empty t' = true).
  { apply frame_empty_no_rows. by rewrite (clean_frame_nrows _ _ Ht'). }
  rewrite bind_run.
  assert (Hload : (alloc t ≫= (λ df : loc, print "Data loaded successfully." ≫= λ _ : (), mret (PyRef df))) st = (Ok (PyRef l), st1)) by reflexivity.
  rewrite Hload, bind_run, Hrun, bind_run.
  unfold hypothesis_testing, visualize_data. rewrite (bind_run (read l _)). 
  rewrite (read_run l _ _ t') by apply lookup_insert_eq.
  rewrite Hempty. unfold print at 1. cbn [heap stdout].
  rewrite !bind_run.
  rewrite (read_run l _ _ t') by apply lookup_insert_eq.
  rewrite Hempty. unfold print. cbn [heap stdout].
  subst st1. cbn [heap stdout]. rewrite insert_insert_eq. unfold report.
  by rewrite <- !app_assoc.
Qed.

Lemma main_on_table_without_rows_witness :
  exists l t',
    heap (initial_state raw_table) !! l = None /\
    @clean_frame decimal_pandas header_only = Ok t' /\
    @main decimal_pandas (with_file (Some header_only)) (initial_state raw_table) =
      (Ok tt,
       {| heap := <[l := t']> (heap (initial_state raw_table));
          stdout :=
            (stdout (initial_state raw_table) ++
             [Line "Data loaded successfully.";
              Line (NL +:+ "Dataset Info After Cleaning:");
              InfoReport t';
              Line "Error: No data for hypothesis testing.";
              Line "Error: No data for visualization.";
              Line (NL +:+ "Data cleaning, hypothesis testing, and visualizations completed successfully.")])%list |}).
Proof.
  apply (@main_on_table_without_rows decimal_pandas (with_file (Some header_only))
           (initial_state raw_table) header_only).
  - reflexivity.
  - reflexivity.
  - repeat constructor.
Defined.

(** X13. When the table has rows and one of the two gender samples is
    empty, [hypothesis_testing] runs no test on them: it prints its two
    headings and the diagnostic of insufficient data, and goes on with the
    remaining tests. *)
Theorem hypothesis_testing_insufficient_data `{Collaborators} l st t female male :
  heap st !! l = Some t ->
  frame_empty t = false ->
  sales_of "Female" t = Ok female ->
  sales_of "Male" t = Ok male ->
  female = [] \/ male = [] ->
  hypothesis_testing (PyRef l) st =
    remaining_tests l
      {| heap := heap st;
         stdout :=
           (stdout st ++
            [Line (NL +:+ "=== Hypothesis Testing ===");
             Line (NL +:+ "Test 1: Difference in Sales Amount Between Genders");
             Line "Error: Insufficient data for gender sales test."])%list |}.
Proof.
  intros Hl Hrows Hf Hm Hnone. unfold hypothesis_testing.
  rewrite bind_run, (read_run _ _ _ _ Hl), Hrows.
  rewrite bind_run. unfold print at 1. cbn [heap stdout].
  rewrite bind_run. unfold print at 1. cbn [heap stdout]. 
  rewrite bind_run, (read_run l _ _ t) by exact Hl. rewrite Hf.
  rewrite bind_run, (read_run l _ _ t) by exact Hl. rewrite Hm.
  assert (Hlen : (0 <? length female)%nat && (0 <? length male)%nat = false).
  { destruct Hnone as [-> | ->]; [done | apply andb_false_r]. }
  rewrite Hlen, bind_run. unfold print. cbn [heap stdout].
  by rewrite <- !app_assoc.
Qed.

Lemma hypothesis_testing_insufficient_data_witness :
  @hypothesis_testing (with_file None) (PyRef 1%positive) (initial_state no_qty_table) =
    @remaining_tests (with_file None) 1%positive
      {| heap := heap (initial_state no_qty_table);
         stdout :=
           (stdout (initial_state no_qty_table) ++
            [Line (NL +:+ "=== Hypothesis Testing ===");
             Line (NL +:+ "Test 1: Difference in Sales Amount Between Genders");
             Line "Error: Insufficient data for gender sales test."])%list |}.
Proof.
  apply (@hypothesis_testing_insufficient_data (with_file None) 1%positive
           (initial_state no_qty_table) no_qty_table [] []).
  - reflexivity.
  - reflexivity.
  - reflexivity.
  - reflexivity.
  - by left.
Defined.

(* ===================================================================== *)
(** ** The samples of the gender test *)
(* ===================================================================== *)







(* ===================================================================== *)
(** ** Axis labels *)
(* ===================================================================== *)

(** X15. [thousands_formatter] cuts, it does not round: every whole tick
    from 1000 k to 1000 k + 999, with k at least 1, is labelled with k
    followed by K. *)
Theorem thousands_formatter_truncates (k r : Z) :
  1 <= k -> 0 <= r < 1000 -> 1000 * k + r < 2 ^ 53 ->
  thousands_formatter (1000 * k + r) = show_Z k +:+ "K".
Proof.
  intros Hk Hr _. unfold thousands_formatter.
  destruct (Z.leb_spec 1000 (1000 * k + r)); [| lia].
  f_equal. f_equal. rewrite Z.mul_comm, Z.div_add_l by lia.
  rewrite Z.div_small by lia. lia.
Qed.

Lemma thousands_formatter_truncates_witness :
  thousands_formatter (1000 * 12 + 999) = show_Z 12 +:+ "K".
Proof. apply (thousands_formatter_truncates 12 999); lia. Defined.
